(** * Gemma fine-tuning notebook: a shallow embedding

    The notebook [01_sft_gemma_finetuning_on_vertex.ipynb] is a linear script
    against the Vertex AI SDK.  Its own logic is parameter collection, a few
    assertions, string construction and a fixed sequence of SDK calls.

    The embedding follows the notebook cell by cell.  Python strings are Rocq
    strings, a character being a code point below 256 (on these [isspace]
    and [lower] are Python's), Python exceptions are values of [exn], and a
    cell is a computation in a state-and-exception monad whose state is the
    log of calls made to the outside (SDK calls and shell commands) together
    with the number of clock readings taken so far.  What the outside does
    (whether an SDK call raises, what a captured shell command prints, what
    the clock shows) is a parameter [world] of every cell.  The [print]
    lines of the notebook change nothing a later line reads and are left
    out. *)

From Stdlib Require Import String Ascii List ZArith Bool Arith Lia DecimalString.
Import ListNotations.
Local Open Scope list_scope.
Local Open Scope string_scope.

(** ** Python string operations used by the notebook *)

Module PyString.

(** [sub in s] *)
Fixpoint contains (sub s : string) : bool :=
  prefix sub s ||
  match s with
  | EmptyString => false
  | String _ t => contains sub t
  end.

(** [s.startswith(p)] *)
Definition startswith (s p : string) : bool := prefix p s.

(** [c.isspace()], the characters [str.strip()] removes: below code point
    256 these are 9 to 13, 28 to 32, 133 (next line) and 160 (no-break
    space). *)
Definition isspace (c : ascii) : bool :=
  let n := nat_of_ascii c in
  (((9 <=? n) && (n <=? 13)) || ((28 <=? n) && (n <=? 32))
   || (n =? 133) || (n =? 160))%nat.

Fixpoint lstrip (s : string) : string :=
  match s with
  | EmptyString => EmptyString
  | String c t => if isspace c then lstrip t else s
  end.

Fixpoint rstrip (s : string) : string :=
  match s with
  | EmptyString => EmptyString
  | String c t =>
      match rstrip t with
      | EmptyString => if isspace c then EmptyString else String c EmptyString
      | t' => String c t'
      end
  end.

(** [s.strip()] *)
Definition strip (s : string) : string := rstrip (lstrip s).

(** [c.lower()]: below code point 256 the capitals are A to Z (65 to 90)
    and 192 to 222 without the multiplication sign 215. *)
Definition lower_char (c : ascii) : ascii :=
  let n := nat_of_ascii c in
  if (((65 <=? n) && (n <=? 90))
      || ((192 <=? n) && (n <=? 222) && negb (n =? 215)))%nat
  then ascii_of_nat (n + 32) else c.

(** [s.lower()] *)
Fixpoint lower (s : string) : string :=
  match s with
  | EmptyString => EmptyString
  | String c t => String (lower_char c) (lower t)
  end.

(** [s.split(sep)] for a one-character separator: never an empty list. *)
Fixpoint split (sep : ascii) (s : string) : list string :=
  match s with
  | EmptyString => [EmptyString]
  | String c t =>
      if Ascii.eqb c sep then EmptyString :: split sep t
      else match split sep t with
           | [] => [String c EmptyString]
           | w :: ws => String c w :: ws
           end
  end.

(** [sep.join(parts)] *)
Fixpoint join (sep : string) (parts : list string) : string :=
  match parts with
  | [] => EmptyString
  | [p] => p
  | p :: ps => p ++ sep ++ join sep ps
  end.

(** [s.replace(c, "")] for a one-character [c]. *)
Fixpoint remove_char (c : ascii) (s : string) : string :=
  match s with
  | EmptyString => EmptyString
  | String d t => if Ascii.eqb d c then remove_char c t else String d (remove_char c t)
  end.

(** [bool(s)]: a string is true when it is not empty. *)
Definition truthy (s : string) : bool :=
  match s with EmptyString => false | _ => true end.

(** [bool(x)] for a variable that holds [None] or a string. *)
Definition truthy_opt (o : option string) : bool :=
  match o with None => false | Some s => truthy s end.

(** [str(n)] for an [int]. *)
Definition of_int (z : Z) : string := NilZero.string_of_int (Z.to_int z).

(** [xs[-1]] *)
Definition last_item {A} (xs : list A) : option A :=
  match rev xs with [] => None | x :: _ => Some x end.

(** [s.endswith(c)] for a one-character [c]. *)
Fixpoint endswith_char (s : string) (c : ascii) : bool :=
  match s with
  | EmptyString => false
  | String d EmptyString => Ascii.eqb d c
  | String _ t => endswith_char t c
  end.

(** [os.path.join(a, b)] on POSIX. *)
Definition os_path_join (a b : string) : string :=
  if startswith b "/" then b
  else if negb (truthy a) || endswith_char a "/" then a ++ b
  else a ++ "/" ++ b.

End PyString.

(** ** [datetime] and [strftime] *)

(** A reading of [datetime.now()].  Python keeps every field within its
    range (see [valid_datetime]); the fixed widths below rely on that. *)
Record datetime := mk_datetime {
  year : nat; month : nat; day : nat; hour : nat; minute : nat; second : nat
}.

Definition digit_char (d : nat) : ascii := ascii_of_nat (48 + d).

(** The [w] low decimal digits of [n], most significant first, in front of [acc]. *)
Fixpoint digits (w n : nat) (acc : string) : string :=
  match w with
  | O => acc
  | S w' => digits w' (n / 10) (String (digit_char (n mod 10)) acc)
  end.

(** One conversion directive of [strftime]: the field as a decimal number
    padded with zeros, on four digits for the year and two for the others,
    as the Python documentation gives them (a C library may leave a year
    below 1000 unpadded; no clock of today reads one). *)
Definition directive (c : ascii) (d : datetime) : string :=
  if Ascii.eqb c "Y" then digits 4 (year d) ""
  else if Ascii.eqb c "m" then digits 2 (month d) ""
  else if Ascii.eqb c "d" then digits 2 (day d) ""
  else if Ascii.eqb c "H" then digits 2 (hour d) ""
  else if Ascii.eqb c "M" then digits 2 (minute d) ""
  else if Ascii.eqb c "S" then digits 2 (second d) ""
  else String "%" (String c "").

(** [d.strftime(fmt)] for the directives the notebook uses. *)
Fixpoint strftime (fmt : string) (d : datetime) : string :=
  match fmt with
  | EmptyString => EmptyString
  | String "%" (String c rest) => directive c d ++ strftime rest d
  | String c rest => String c (strftime rest d)
  end.

(** ** Values handed to the platform *)

(** A Python [float], kept as the text Python prints for it. *)
Definition pyfloat := string.

Inductive pyval :=
| VStr (s : string)
| VInt (z : Z)
| VFloat (f : pyfloat)
| VBool (b : bool).

(** A Python [dict] with string keys, in insertion order. *)
Definition pydict (V : Type) := list (string * V).

(** [d[k] = v] *)
Fixpoint dict_set {V} (d : pydict V) (k : string) (v : V) : pydict V :=
  match d with
  | [] => [(k, v)]
  | (k', v') :: d' => if String.eqb k' k then (k, v) :: d' else (k', v') :: dict_set d' k v
  end.

Definition dict_keys {V} (d : pydict V) : list string := map fst d.
Definition dict_values {V} (d : pydict V) : list V := map snd d.

Fixpoint dict_get {V} (d : pydict V) (k : string) : option V :=
  match d with
  | [] => None
  | (k', v) :: d' => if String.eqb k' k then Some v else dict_get d' k
  end.

(** An [aiplatform.Endpoint] object: made by [Endpoint.create] in this run
    ([endpoint_uid] is the position of that call in the log), or loaded by
    resource name. *)
Inductive endpoint :=
| CreatedEndpoint (endpoint_uid : nat) (display_name : string)
| LoadedEndpoint (resource_name : string).

(** An [aiplatform.Model] object returned by [Model.upload]. *)
Record model := mk_model { model_uid : nat; model_display_name : string }.

(** An [aiplatform.CustomContainerTrainingJob] object. *)
Record training_job := mk_training_job {
  job_uid : nat; job_display_name : string; job_container_uri : string
}.

(** Keyword arguments of [aiplatform.Model.upload]. *)
Record upload_request := mk_upload_request {
  display_name : string;
  serving_container_image_uri : string;
  serving_container_command : list string;
  serving_container_args : list string;
  serving_container_ports : list Z;
  serving_container_predict_route : string;
  serving_container_health_route : string;
  serving_container_environment_variables : pydict string;
  serving_container_shared_memory_size_mb : Z;
  serving_container_deployment_timeout : Z
}.

(** Keyword arguments of [model.deploy]. *)
Record deploy_request := mk_deploy_request {
  dr_endpoint : endpoint;
  dr_machine_type : string;
  dr_accelerator_type : string;
  dr_accelerator_count : Z;
  dr_deploy_request_timeout : Z;
  dr_service_account : string
}.

(** Keyword arguments of [train_job.run]. *)
Record run_request := mk_run_request {
  args : list string;
  environment_variables : pydict pyval;
  replica_count : Z;
  run_machine_type : option string;
  run_accelerator_type : string;
  run_accelerator_count : Z;
  boot_disk_size_gb : Z;
  run_service_account : string
}.

(** The shell lines of the notebook (the [!] lines), after IPython has
    expanded [$NAME] and [{NAME}]. *)
Inductive shell_cmd :=
| gcloud_config_set_project (project : string)
| gcloud_services_enable
| gsutil_mb (location uri : string)
| gsutil_ls_location (bucket_name : string)
| gcloud_projects_describe (project : string)
| gsutil_iam_ch (service_account bucket_name : string)
| gsutil_rm (uri : string).

(** The double quote character. *)
Definition dquote : string := String (ascii_of_nat 34) EmptyString.

Definition command_line (c : shell_cmd) : string :=
  match c with
  | gcloud_config_set_project p => "gcloud config set project " ++ p
  | gcloud_services_enable =>
      "gcloud services enable aiplatform.googleapis.com compute.googleapis.com"
  | gsutil_mb l u => "gsutil mb -l " ++ l ++ " " ++ u
  | gsutil_ls_location b =>
      "gsutil ls -Lb " ++ b ++
      " | grep " ++ dquote ++ "Location constraint:" ++ dquote ++
      " | sed " ++ dquote ++ "s/Location constraint://" ++ dquote
  | gcloud_projects_describe p => "gcloud projects describe " ++ p
  | gsutil_iam_ch a b =>
      "gsutil iam ch serviceAccount:" ++ a ++ ":roles/storage.admin " ++ b
  | gsutil_rm u => "gsutil -m rm -r " ++ u
  end.

(** Everything the notebook asks of the outside. *)
Inductive call :=
| Shell (c : shell_cmd)
| aiplatform_init (project location staging_bucket : string)
| Endpoint_create (display_name : string)
| Model_upload (u : upload_request)
| Model_deploy (m : model) (d : deploy_request)
| CustomContainerTrainingJob (display_name container_uri : string)
| TrainingJob_run (job : training_job) (r : run_request)
| Endpoint_load (resource_name : string)
| Endpoint_predict (e : endpoint) (instances : list (pydict pyval))
| TrainingJob_delete (job : training_job)
| Endpoint_delete (e : endpoint) (force : bool)
| Model_delete (m : model).

Inductive outcome := Returned | Raised.

(** One entry of the log: the call and whether it returned or raised. *)
Definition event := (call * outcome)%type.

(** ** Exceptions and the notebook monad *)

Inductive exn :=
| AssertionError (msg : string)
| ValueError (msg : string)
| IndexError
| SdkError (c : call).

Inductive result (A : Type) :=
| Ok (a : A)
| Raise (e : exn).
Arguments Ok {A} a.
Arguments Raise {A} e.

(** The outside, as the notebook sees it. *)
Record world := mk_world {
  (** the [k]-th reading of [datetime.now()] *)
  now : nat -> datetime;
  (** the lines a captured shell command prints, on standard output and
      on standard error alike: IPython captures both *)
  shell_output : shell_cmd -> list string;
  (** whether an SDK call raises, given the log so far *)
  sdk_raises : list event -> call -> bool
}.

Record state := mk_state {
  log : list event;
  clock_reads : nat
}.

Definition initial_state : state := mk_state [] 0.

Definition M (A : Type) : Type := state -> result A * state.

Definition ret {A} (a : A) : M A := fun s => (Ok a, s).

Definition bind {A B} (m : M A) (f : A -> M B) : M B :=
  fun s => match m s with
           | (Ok a, s') => f a s'
           | (Raise e, s') => (Raise e, s')
           end.

Definition raise {A} (e : exn) : M A := fun s => (Raise e, s).

Declare Scope nb_scope.
Delimit Scope nb_scope with nb.
Notation "x <- m ;; k" := (bind m (fun x => k))
  (at level 61, m at next level, right associativity) : nb_scope.
Notation "m ;; k" := (bind m (fun _ => k))
  (at level 61, right associativity) : nb_scope.
Local Open Scope nb_scope.

(** [assert cond, msg] *)
Definition assert_ (cond : bool) (msg : string) : M unit :=
  if cond then ret tt else raise (AssertionError msg).

(** A pure step that may raise. *)
Definition lift {A} (r : result A) : M A := fun s => (r, s).

(** [xs[i]], raising [IndexError] out of range. *)
Definition index {A} (xs : list A) (i : nat) : M A :=
  match nth_error xs i with
  | Some x => ret x
  | None => raise IndexError
  end.

(** [xs[-1]] *)
Definition index_last {A} (xs : list A) : M A :=
  match PyString.last_item xs with
  | Some x => ret x
  | None => raise IndexError
  end.

Section Notebook.

Variable W : world.

(** [datetime.now()] *)
Definition datetime_now : M datetime :=
  fun s => (Ok (now W (clock_reads s)), mk_state (log s) (S (clock_reads s))).

(** An SDK call: it is logged with its outcome; when it returns, the
    result is the position of the call in the log, which names the
    object the call made. *)
Definition sdk (c : call) : M nat :=
  fun s =>
    if sdk_raises W (log s) c
    then (Raise (SdkError c), mk_state (log s ++ [(c, Raised)])%list (clock_reads s))
    else (Ok (List.length (log s)), mk_state (log s ++ [(c, Returned)])%list (clock_reads s)).

(** A [!] line: IPython runs it and goes on whatever its exit status. *)
Definition shell (c : shell_cmd) : M unit :=
  fun s => (Ok tt, mk_state (log s ++ [(Shell c, Returned)])%list (clock_reads s)).

(** [out = ! cmd]: the same, with the printed lines as the result. *)
Definition shell_capture (c : shell_cmd) : M (list string) :=
  fun s => (Ok (shell_output W c), mk_state (log s ++ [(Shell c, Returned)])%list (clock_reads s)).


(** ** The form fields of the notebook *)

Record config := mk_config {
  PROJECT_ID : string;
  REGION : string;
  BUCKET_URI : option string;
  HF_TOKEN : string;
  dataset_name : string;
  instruct_column_in_dataset : string;
  MODEL_ID : string;
  ACCELERATOR_TYPE : string;
  per_device_train_batch_size : Z;
  max_steps : Z;
  finetuning_precision_mode : string;
  learning_rate : pyfloat;
  lora_rank : Z;
  lora_alpha : Z;
  lora_dropout : pyfloat;
  serve_machine_type : string;
  serve_accelerator_type : string;
  serve_accelerator_count : Z;
  max_model_len : Z;
  ENDPOINT_NAME : string;
  prompt : string;
  max_tokens : Z;
  temperature : pyfloat;
  top_p : pyfloat;
  top_k : Z;
  delete_bucket : bool
}.

(** ** Cell "Set the cloud project id" *)

Definition cell_project (c : config) : M unit :=
  shell (gcloud_config_set_project (PROJECT_ID c)).

(** ** Cell "Enable the Vertex AI API" *)

Definition cell_enable_apis : M unit :=
  shell gcloud_services_enable.

(** ** Cell "Create a Cloud Storage bucket" *)

Record bucket_vars := mk_bucket_vars {
  BUCKET_URI' : string;
  STAGING_BUCKET : string;
  MODEL_BUCKET : string;
  SERVICE_ACCOUNT : string;
  BUCKET_NAME : string
}.

(** [BUCKET_URI is None or BUCKET_URI.strip() == "" or BUCKET_URI == "gs://"] *)
Definition bucket_unset (b : option string) : bool :=
  match b with
  | None => true
  | Some u => (PyString.strip u =? "") || (u =? "gs://")
  end.

(** ["/".join(uri.split("/")[:3])] *)
Definition bucket_name_of (uri : string) : string :=
  PyString.join "/" (firstn 3 (PyString.split "/" uri)).

Definition msg_bucket_prefix : string := "BUCKET_URI must start with `gs://`.".

Definition msg_bucket_region (bucket_region region : string) : string :=
  "Bucket region " ++ bucket_region ++ " is different from notebook region " ++ region.

(** The [if]/[else] at the top of the cell; its result is [BUCKET_URI]. *)
Definition choose_bucket (c : config) : M string :=
  t <- datetime_now ;;
  let now := strftime "%Y%m%d%H%M%S" t in
  if bucket_unset (BUCKET_URI c) then
    let uri := "gs://" ++ PROJECT_ID c ++ "-tmp-" ++ now in
    shell (gsutil_mb (REGION c) uri) ;;
    ret uri
  else
    let uri := match BUCKET_URI c with Some u => u | None => "" end in
    assert_ (PyString.startswith uri "gs://") msg_bucket_prefix ;;
    let bucket_name := bucket_name_of uri in
    shell_output <- shell_capture (gsutil_ls_location bucket_name) ;;
    line <- index shell_output 0 ;;
    let bucket_region := PyString.lower (PyString.strip line) in
    if negb (bucket_region =? REGION c) then
      raise (ValueError (msg_bucket_region bucket_region (REGION c)))
    else ret uri.

Definition cell_bucket (c : config) : M bucket_vars :=
  uri <- choose_bucket c ;;
  let staging := PyString.os_path_join uri "temporal" in
  let model_bucket := PyString.os_path_join uri "gemma" in
  shell_output <- shell_capture (gcloud_projects_describe (PROJECT_ID c)) ;;
  line <- index_last shell_output ;;
  field <- index (PyString.split ":" line) 1 ;;
  let project_number := PyString.remove_char "'" (PyString.strip field) in
  let service_account := project_number ++ "-compute@developer.gserviceaccount.com" in
  let bucket_name := bucket_name_of uri in
  shell (gsutil_iam_ch service_account bucket_name) ;;
  ret (mk_bucket_vars uri staging model_bucket service_account bucket_name).

(** ** Cell "Initialize Vertex AI API" *)

Record init_vars := mk_init_vars {
  models : pydict model;
  endpoints : pydict endpoint
}.

Definition msg_hf_token : string :=
  "Please provide a read HF_TOKEN to load models from Hugging Face, or select a different model source.".

Definition TRAIN_DOCKER_URI : string :=
  "us-docker.pkg.dev/vertex-ai/vertex-vision-model-garden-dockers/pytorch-peft-train:20240220_0936_RC01".
Definition VLLM_DOCKER_URI : string :=
  "us-docker.pkg.dev/vertex-ai/vertex-vision-model-garden-dockers/pytorch-vllm-serve:20240220_0936_RC01".

Definition cell_init (c : config) (b : bucket_vars) : M init_vars :=
  let g := mk_init_vars [] [] in
  sdk (aiplatform_init (PROJECT_ID c) (REGION c) (STAGING_BUCKET b)) ;;
  assert_ (PyString.truthy (HF_TOKEN c)) msg_hf_token ;;
  ret g.

(** ** Cell "Helper Methods" *)

(** [deploy_model_vllm].  [hf_token] is the global [HF_TOKEN] as the body
    finds it: [None] when the name is not defined, which the [try]/[except]
    around its use swallows. *)
Definition deploy_model_vllm (hf_token : option string)
    (model_name model_id service_account : string)
    (base_model_id : option string)
    (machine_type accelerator_type : string) (accelerator_count : Z)
    (gpu_memory_utilization : pyfloat) (max_model_len : Z) (dtype : string)
    : M (model * endpoint) :=
  eid <- sdk (Endpoint_create (model_name ++ "-endpoint")) ;;
  let endpoint := CreatedEndpoint eid (model_name ++ "-endpoint") in
  let base_model_id :=
    if negb (PyString.truthy_opt base_model_id) then model_id
    else match base_model_id with Some b => b | None => model_id end in
  let vllm_args :=
    [ "--host=0.0.0.0";
      "--port=7080";
      "--model=" ++ model_id;
      "--tensor-parallel-size=" ++ PyString.of_int accelerator_count;
      "--swap-space=16";
      "--gpu-memory-utilization=" ++ gpu_memory_utilization;
      "--max-model-len=" ++ PyString.of_int max_model_len;
      "--dtype=" ++ dtype;
      "--disable-log-stats" ] in
  let env_vars : pydict string :=
    [ ("MODEL_ID", base_model_id); ("DEPLOY_SOURCE", "notebook") ] in
  let env_vars :=
    match hf_token with
    | Some t => if PyString.truthy t then dict_set env_vars "HF_TOKEN" t else env_vars
    | None => env_vars
    end in
  mid <- sdk (Model_upload
                (mk_upload_request model_name VLLM_DOCKER_URI
                   ["python"; "-m"; "vllm.entrypoints.api_server"]
                   vllm_args [7080%Z] "/generate" "/ping" env_vars
                   (16 * 1024)%Z 7200%Z)) ;;
  let model := mk_model mid model_name in
  sdk (Model_deploy model
         (mk_deploy_request endpoint machine_type accelerator_type
            accelerator_count 1800%Z service_account)) ;;
  ret (model, endpoint).

(** [get_job_name_with_datetime] *)
Definition get_job_name_with_datetime (prefix : string) : M string :=
  t <- datetime_now ;;
  ret (prefix ++ strftime "_%Y%m%d_%H%M%S" t).

(** ** Cell "Finetune" *)

Definition msg_7b_v100 : string :=
  "Finetuning Gemma 7B models is not supported on NVIDIA_TESLA_V100. Try a GPU with more VRAM.".

Definition msg_7b_l4 (precision_mode : string) : string :=
  precision_mode ++
  " finetuning of Gemma 7B models is not supported on NVIDIA_L4. Try a GPU with more VRAM or use a different precision mode.".

Definition msg_machine_type (accelerator_type : string) : string :=
  "Cannot automatically determine machine type from " ++ accelerator_type ++ ".".

(** [assert cond, msg] outside the monad. *)
Definition check (cond : bool) (msg : string) : result unit :=
  if cond then Ok tt else Raise (AssertionError msg).

Definition and_then {A} (r : result unit) (k : result A) : result A :=
  match r with
  | Ok _ => k
  | Raise e => Raise e
  end.

(** The [if]/[elif] chain that sets [machine_type], which starts as [None]. *)
Definition select_machine_type (accelerator_type : string) : option string :=
  if accelerator_type =? "NVIDIA_TESLA_V100" then Some "n1-standard-8"
  else if accelerator_type =? "NVIDIA_L4" then Some "g2-standard-12"
  else if accelerator_type =? "NVIDIA_TESLA_A100" then Some "a2-highgpu-1g"
  else None.

(** The assertions of the cell, in the order of the source; the result is
    the value of [machine_type] after them. *)
Definition validate (model_id accelerator_type precision_mode : string)
    : result (option string) :=
  and_then
    (if PyString.contains "7b" model_id then
       and_then
         (check (negb (accelerator_type =? "NVIDIA_TESLA_V100")) msg_7b_v100)
         (if accelerator_type =? "NVIDIA_L4" then
            check (precision_mode =? "4bit") (msg_7b_l4 precision_mode)
          else Ok tt)
     else Ok tt)
    (let machine_type := select_machine_type accelerator_type in
     and_then
       (check (PyString.truthy_opt machine_type) (msg_machine_type accelerator_type))
       (Ok machine_type)).

Record finetune_vars := mk_finetune_vars {
  base_model_id : string;
  machine_type : option string;
  job_name : string;
  train_job : training_job;
  lora_adapter_dir : string;
  lora_output_dir : string;
  merged_model_dir : string;
  merged_model_output_dir : string
}.

(** The [args] list of [train_job.run]. *)
Definition train_args (c : config) (base_model_id lora_output_dir merged_model_output_dir template : string)
    : list string :=
  [ "--task=instruct-lora";
    "--pretrained_model_id=" ++ base_model_id;
    "--dataset_name=" ++ dataset_name c;
    "--instruct_column_in_dataset=" ++ instruct_column_in_dataset c;
    "--output_dir=" ++ lora_output_dir;
    "--merge_base_and_lora_output_dir=" ++ merged_model_output_dir;
    "--per_device_train_batch_size=" ++ PyString.of_int (per_device_train_batch_size c);
    "--lora_rank=" ++ PyString.of_int (lora_rank c);
    "--lora_alpha=" ++ PyString.of_int (lora_alpha c);
    "--lora_dropout=" ++ lora_dropout c;
    "--max_steps=" ++ PyString.of_int (max_steps c);
    "--max_seq_length=512";
    "--learning_rate=" ++ learning_rate c;
    "--precision_mode=" ++ finetuning_precision_mode c;
    "--template=" ++ template;
    "--huggingface_access_token=" ++ HF_TOKEN c ].

Definition cell_finetune (c : config) (b : bucket_vars) : M finetune_vars :=
  let base_model_path_prefix := "google/" in
  let base_model_id := PyString.os_path_join base_model_path_prefix (MODEL_ID c) in
  let template := "" in
  let accelerator_count := 1%Z in
  machine_type <-
    lift (validate (MODEL_ID c) (ACCELERATOR_TYPE c) (finetuning_precision_mode c)) ;;
  let replica_count := 1%Z in
  job_name <- get_job_name_with_datetime "gemma-lora-train" ;;
  jid <- sdk (CustomContainerTrainingJob job_name TRAIN_DOCKER_URI) ;;
  let train_job := mk_training_job jid job_name TRAIN_DOCKER_URI in
  lora_adapter_dir <- get_job_name_with_datetime "gemma-lora-adapter" ;;
  let lora_output_dir := PyString.os_path_join (STAGING_BUCKET b) lora_adapter_dir in
  merged_model_dir <- get_job_name_with_datetime "gemma-merged-model" ;;
  let merged_model_output_dir := PyString.os_path_join (STAGING_BUCKET b) merged_model_dir in
  sdk (TrainingJob_run train_job
         (mk_run_request
            (train_args c base_model_id lora_output_dir merged_model_output_dir template)
            [("WANDB_DISABLED", VBool true)]
            replica_count machine_type (ACCELERATOR_TYPE c) accelerator_count
            500%Z (SERVICE_ACCOUNT b))) ;;
  ret (mk_finetune_vars base_model_id machine_type job_name train_job
         lora_adapter_dir lora_output_dir merged_model_dir merged_model_output_dir).

(** ** Cell "Deploy" *)

Definition cell_deploy (c : config) (b : bucket_vars) (f : finetune_vars)
    : M (model * endpoint) :=
  let base_model_path_prefix := "google/" in
  model_name <- get_job_name_with_datetime "gemma-vllm-serve" ;;
  deploy_model_vllm (Some (HF_TOKEN c))
    model_name (merged_model_output_dir f) (SERVICE_ACCOUNT b)
    (Some (base_model_path_prefix ++ MODEL_ID c))
    (serve_machine_type c) (serve_accelerator_type c) (serve_accelerator_count c)
    "0.9" (max_model_len c) "auto".

(** ** Cell "Predict" *)

(** A [dict] display [{k1: v1, ...}]: a later duplicate key overrides. *)
Definition dict_literal {V} (items : list (string * V)) : pydict V :=
  fold_left (fun d kv => dict_set d (fst kv) (snd kv)) items [].

Definition predict_instances (c : config) : list (pydict pyval) :=
  [ dict_literal
      [ ("prompt", VStr ("### Human: " ++ prompt c ++ "### Assistant: "));
        ("max_tokens", VInt (max_tokens c));
        ("temperature", VFloat (temperature c));
        ("top_p", VFloat (top_p c));
        ("top_k", VInt (top_k c)) ] ].

Definition aip_endpoint_name (c : config) : string :=
  "projects/" ++ PROJECT_ID c ++ "/locations/" ++ REGION c ++
  "/endpoints/" ++ ENDPOINT_NAME c.

(** The argument is the variable [endpoint] as the Deploy cell left it;
    the result is its value at the end of this cell. *)
Definition cell_predict (c : config) (endpoint0 : endpoint) : M endpoint :=
  endpoint <-
    (if PyString.truthy (ENDPOINT_NAME c) then
       sdk (Endpoint_load (aip_endpoint_name c)) ;;
       ret (LoadedEndpoint (aip_endpoint_name c))
     else ret endpoint0) ;;
  let instances := predict_instances c in
  sdk (Endpoint_predict endpoint instances) ;;
  ret endpoint.

(** ** Cell "Clean up resources" *)

(** [for x in xs: body(x)] *)
Fixpoint for_each {A} (xs : list A) (body : A -> M unit) : M unit :=
  match xs with
  | [] => ret tt
  | x :: rest => body x ;; for_each rest body
  end.

Definition cell_cleanup (c : config) (b : bucket_vars) (g : init_vars) (f : finetune_vars)
    : M unit :=
  sdk (TrainingJob_delete (train_job f)) ;;
  for_each (dict_values (endpoints g))
    (fun endpoint => sdk (Endpoint_delete endpoint true) ;; ret tt) ;;
  for_each (dict_values (models g))
    (fun model => sdk (Model_delete model) ;; ret tt) ;;
  if delete_bucket c then shell (gsutil_rm (BUCKET_URI' b)) else ret tt.

(** ** The notebook, run from top to bottom

    A cell that raises stops the run.  The dictionaries [models] and
    [endpoints] made by the initialisation cell reach the clean-up cell as
    they were made: no cell in between stores into them. *)
Definition run_all (c : config) : M unit :=
  cell_project c ;;
  cell_enable_apis ;;
  b <- cell_bucket c ;;
  g <- cell_init c b ;;
  f <- cell_finetune c b ;;
  me <- cell_deploy c b f ;;
  cell_predict c (snd me) ;;
  cell_cleanup c b g f.

End Notebook.

(** ** Cloud resources, read off the log *)

Inductive resource :=
| TrainingJobResource (job : training_job)
| EndpointResource (e : endpoint)
| ModelResource (m : model)
| BucketResource (uri : string).

Definition endpoint_eqb (a b : endpoint) : bool :=
  match a, b with
  | CreatedEndpoint i n, CreatedEndpoint j m => Nat.eqb i j && String.eqb n m
  | LoadedEndpoint n, LoadedEndpoint m => String.eqb n m
  | _, _ => false
  end.

Definition resource_eqb (a b : resource) : bool :=
  match a, b with
  | TrainingJobResource j, TrainingJobResource k =>
      Nat.eqb (job_uid j) (job_uid k) && String.eqb (job_display_name j) (job_display_name k)
  | EndpointResource e, EndpointResource f => endpoint_eqb e f
  | ModelResource m, ModelResource n =>
      Nat.eqb (model_uid m) (model_uid n) && String.eqb (model_display_name m) (model_display_name n)
  | BucketResource u, BucketResource v => String.eqb u v
  | _, _ => false
  end.

(** What the [i]-th entry of the log brings into being. *)
Definition created_by (i : nat) (ev : event) : list resource :=
  match ev with
  | (Shell (gsutil_mb _ uri), _) => [BucketResource uri]
  | (Endpoint_create name, Returned) => [EndpointResource (CreatedEndpoint i name)]
  | (Model_upload u, Returned) => [ModelResource (mk_model i (display_name u))]
  | (TrainingJob_run job _, Returned) => [TrainingJobResource job]
  | _ => []
  end.

(** What an entry of the log removes. *)
Definition deleted_by (ev : event) : list resource :=
  match ev with
  | (Shell (gsutil_rm uri), _) => [BucketResource uri]
  | (Endpoint_delete e _, Returned) => [EndpointResource e]
  | (Model_delete m, Returned) => [ModelResource m]
  | (TrainingJob_delete job, Returned) => [TrainingJobResource job]
  | _ => []
  end.

Definition without (gone have : list resource) : list resource :=
  filter (fun r => negb (existsb (resource_eqb r) gone)) have.

Fixpoint live_from (i : nat) (l : list event) (have : list resource) : list resource :=
  match l with
  | [] => have
  | ev :: rest => live_from (S i) rest (without (deleted_by ev) (have ++ created_by i ev)%list)
  end.

(** The resources a log has created and not deleted. *)
Definition live (l : list event) : list resource := live_from 0 l [].

(** ** The notebook as checked in, and a platform on which nothing fails *)

(** The form as the notebook fills it in, except for the fields given. *)
Definition form (bucket_uri : option string)
    (hf_token model_id accelerator_type precision_mode endpoint_name : string)
    (delete_the_bucket : bool) : config :=
  {| PROJECT_ID := "crafty-progress-421108";
     REGION := "europe-west4";
     BUCKET_URI := bucket_uri;
     HF_TOKEN := hf_token;
     dataset_name := "timdettmers/openassistant-guanaco";
     instruct_column_in_dataset := "text";
     MODEL_ID := model_id;
     ACCELERATOR_TYPE := accelerator_type;
     per_device_train_batch_size := 1;
     max_steps := 10;
     finetuning_precision_mode := precision_mode;
     learning_rate := "0.0002";
     lora_rank := 4;
     lora_alpha := 64;
     lora_dropout := "0.1";
     serve_machine_type := "g2-standard-12";
     serve_accelerator_type := "NVIDIA_L4";
     serve_accelerator_count := 1;
     max_model_len := 2048;
     ENDPOINT_NAME := endpoint_name;
     prompt := "How would the Future of AI in 10 Years look?";
     max_tokens := 128;
     temperature := "1.0";
     top_p := "0.9";
     top_k := 1;
     delete_bucket := delete_the_bucket |}.

(** The notebook as checked in: the token field is empty. *)
Definition notebook_defaults : config :=
  form (Some "gs://") "" "gemma-2b" "NVIDIA_TESLA_V100" "4bit" "" false.

(** The same with a token filled in. *)
Definition notebook_with_token : config :=
  form (Some "gs://") "hf_abc" "gemma-2b" "NVIDIA_TESLA_V100" "4bit" "" false.

(** A clock that starts on 5 March 2024 at 10:20:30 and moves on one
    second between readings. *)
Definition sample_clock (k : nat) : datetime := mk_datetime 2024 3 5 10 20 (30 + k).

Definition sample_shell (c : shell_cmd) : list string :=
  match c with
  | gsutil_ls_location _ => ["  EUROPE-WEST4"]
  | gcloud_projects_describe _ =>
      [ "createTime: '2024-01-10T09:00:00.000Z'";
        "lifecycleState: ACTIVE";
        "name: crafty-progress";
        "projectId: crafty-progress-421108";
        "projectNumber: '123456789012'" ]
  | _ => []
  end.

(** Every SDK call returns. *)
Definition calm : world := mk_world sample_clock sample_shell (fun _ _ => false).

(** ** The choices the form offers *)

Definition allowed_accelerators : list string :=
  ["NVIDIA_TESLA_V100"; "NVIDIA_L4"; "NVIDIA_TESLA_A100"].

Definition allowed_precision_modes : list string := ["4bit"; "8bit"; "float16"].

(** The variables of the bucket cell after a run on [calm] with the
    bucket field left at "gs://". *)
Definition sample_bucket_vars : bucket_vars :=
  {| BUCKET_URI' := "gs://crafty-progress-421108-tmp-20240305102030";
     STAGING_BUCKET := "gs://crafty-progress-421108-tmp-20240305102030/temporal";
     MODEL_BUCKET := "gs://crafty-progress-421108-tmp-20240305102030/gemma";
     SERVICE_ACCOUNT := "123456789012-compute@developer.gserviceaccount.com";
     BUCKET_NAME := "gs://crafty-progress-421108-tmp-20240305102030" |}.

(** A platform on which [Model.upload] raises. *)
Definition upload_fails : world :=
  mk_world sample_clock sample_shell
    (fun _ c => match c with Model_upload _ => true | _ => false end).

(** A platform whose buckets are in another region. *)
Definition elsewhere : world :=
  mk_world sample_clock
    (fun c => match c with
              | gsutil_ls_location _ => [" US-CENTRAL1"]
              | _ => sample_shell c
              end)
    (fun _ _ => false).

(** ** What a computation adds to the log *)

(** The entries a computation appends when started in [s]. *)
Definition emitted {A} (m : M A) (s : state) : list event :=
  skipn (List.length (log s)) (log (snd (m s))).

(** [logs P Q m]: whatever the state [m] starts in, it only appends to the
    log, the entries it appends satisfy [P], and a value it returns
    satisfies [Q]. *)
Definition logs {A} (P : event -> Prop) (Q : A -> Prop) (m : M A) : Prop :=
  forall s, exists tail,
    log (snd (m s)) = (log s ++ tail)%list
    /\ Forall P tail
    /\ (forall a, fst (m s) = Ok a -> Q a).

(** The calls that create or submit the training job. *)
Definition is_training_call (c : call) : bool :=
  match c with
  | CustomContainerTrainingJob _ _ | TrainingJob_run _ _ => true
  | _ => false
  end.

(** The calls that deploy: endpoint creation, model upload, deployment. *)
Definition is_deployment_call (c : call) : bool :=
  match c with
  | Endpoint_create _ | Model_upload _ | Model_deploy _ _ => true
  | _ => false
  end.

Definition is_bucket_creation (c : call) : bool :=
  match c with
  | Shell (gsutil_mb _ _) => true
  | _ => false
  end.

(** The prediction requests of a log, oldest first. *)
Fixpoint predict_requests (l : list event) : list (endpoint * list (pydict pyval)) :=
  match l with
  | [] => []
  | (Endpoint_predict e instances, _) :: rest => (e, instances) :: predict_requests rest
  | _ :: rest => predict_requests rest
  end.

(** The timestamp YYYYMMDD_HHMMSS, field by field. *)
Definition YYYYMMDD_HHMMSS (d : datetime) : string :=
  digits 4 (year d) "" ++ digits 2 (month d) "" ++ digits 2 (day d) "" ++ "_" ++
  digits 2 (hour d) "" ++ digits 2 (minute d) "" ++ digits 2 (second d) "".

(** The timestamp YYYYMMDDHHMMSS of the bucket name. *)
Definition YYYYMMDDHHMMSS (d : datetime) : string :=
  digits 4 (year d) "" ++ digits 2 (month d) "" ++ digits 2 (day d) "" ++
  digits 2 (hour d) "" ++ digits 2 (minute d) "" ++ digits 2 (second d) "".

(** The ranges Python keeps the fields of a [datetime] in. *)
Definition valid_datetime (d : datetime) : Prop :=
  (1 <= year d < 10 ^ 4 /\ 1 <= month d <= 12 /\ 1 <= day d <= 31 /\
   hour d <= 23 /\ minute d <= 59 /\ second d <= 59)%nat.

Definition digit_value (c : ascii) : option nat :=
  let n := nat_of_ascii c in
  if ((48 <=? n) && (n <=? 57))%nat then Some (n - 48)%nat else None.

(** Reading a decimal numeral, most significant digit first. *)
Fixpoint read_decimal_from (acc : nat) (s : string) : option nat :=
  match s with
  | EmptyString => Some acc
  | String c t =>
      match digit_value c with
      | Some d => read_decimal_from (10 * acc + d)%nat t
      | None => None
      end
  end.

Definition read_decimal (s : string) : option nat := read_decimal_from 0 s.

(** The endpoint the request goes to: the one the form names, when it
    names one, else the one the Deploy cell made. *)
Definition predict_target (c : config) (endpoint0 : endpoint) : endpoint :=
  if PyString.truthy (ENDPOINT_NAME c) then LoadedEndpoint (aip_endpoint_name c)
  else endpoint0.

Definition is_endpoint_delete (c : call) : bool :=
  match c with
  | Endpoint_delete _ _ => true
  | _ => false
  end.

Definition is_model_delete (c : call) : bool :=
  match c with
  | Model_delete _ => true
  | _ => false
  end.

(** What the first two cells log; they run before the bucket cell. *)
Definition preamble (c : config) : list event :=
  [ (Shell (gcloud_config_set_project (PROJECT_ID c)), Returned);
    (Shell gcloud_services_enable, Returned) ].


(** A call carries the token [t] where the notebook is to forward it: the
    training job gets it as an argument, the serving container in its
    environment. *)
Definition forwards_token (t : string) (c : call) : Prop :=
  match c with
  | TrainingJob_run _ r => In ("--huggingface_access_token=" ++ t) (args r)
  | Model_upload u =>
      dict_get (serving_container_environment_variables u) "HF_TOKEN" = Some t
  | _ => True
  end.

Definition is_training_run (c : call) : bool :=
  match c with
  | TrainingJob_run _ _ => true
  | _ => false
  end.

Definition is_model_upload (c : call) : bool :=
  match c with
  | Model_upload _ => true
  | _ => false
  end.

(** ** Further vocabulary for the properties below *)

(** What the Finetune cell lets through: one of the three accelerators with
    its machine type, one replica with one GPU, and for a "7b" model neither
    the V100 nor the L4 with a precision mode other than "4bit". *)
Definition compatible_submission (c : config) (k : call) : Prop :=
  match k with
  | TrainingJob_run _ r =>
      run_accelerator_type r = ACCELERATOR_TYPE c
      /\ In (ACCELERATOR_TYPE c) allowed_accelerators
      /\ run_machine_type r = select_machine_type (ACCELERATOR_TYPE c)
      /\ PyString.truthy_opt (run_machine_type r) = true
      /\ replica_count r = 1%Z
      /\ run_accelerator_count r = 1%Z
      /\ (PyString.contains "7b" (MODEL_ID c) = true ->
            ACCELERATOR_TYPE c <> "NVIDIA_TESLA_V100"
            /\ (ACCELERATOR_TYPE c = "NVIDIA_L4" -> finetuning_precision_mode c = "4bit"))
  | _ => True
  end.

(** [c in s] for a character [c]. *)
Fixpoint has_char (c : ascii) (s : string) : bool :=
  match s with
  | EmptyString => false
  | String d t => Ascii.eqb d c || has_char c t
  end.

(** [s] is made of white space only (the empty string included). *)
Fixpoint all_space (s : string) : bool :=
  match s with
  | EmptyString => true
  | String c t => PyString.isspace c && all_space t
  end.

(** The form with another region. *)
Definition with_region (region : string) (c : config) : config :=
  {| PROJECT_ID := PROJECT_ID c;
     REGION := region;
     BUCKET_URI := BUCKET_URI c;
     HF_TOKEN := HF_TOKEN c;
     dataset_name := dataset_name c;
     instruct_column_in_dataset := instruct_column_in_dataset c;
     MODEL_ID := MODEL_ID c;
     ACCELERATOR_TYPE := ACCELERATOR_TYPE c;
     per_device_train_batch_size := per_device_train_batch_size c;
     max_steps := max_steps c;
     finetuning_precision_mode := finetuning_precision_mode c;
     learning_rate := learning_rate c;
     lora_rank := lora_rank c;
     lora_alpha := lora_alpha c;
     lora_dropout := lora_dropout c;
     serve_machine_type := serve_machine_type c;
     serve_accelerator_type := serve_accelerator_type c;
     serve_accelerator_count := serve_accelerator_count c;
     max_model_len := max_model_len c;
     ENDPOINT_NAME := ENDPOINT_NAME c;
     prompt := prompt c;
     max_tokens := max_tokens c;
     temperature := temperature c;
     top_p := top_p c;
     top_k := top_k c;
     delete_bucket := delete_bucket c |}.

(** The value [deploy_model_vllm] gives the container as MODEL_ID: the base
    model when one is given and not empty, else the model itself. *)
Definition effective_base_model (base_model_id : option string) (model_id : string)
    : string :=
  match base_model_id with
  | Some (String c b) => String c b
  | _ => model_id
  end.

(** The token the container gets, if any. *)
Definition forwarded_token (hf_token : option string) : option string :=
  match hf_token with
  | Some (String c t) => Some (String c t)
  | _ => None
  end.

(** The one-character string U+00A0. *)
Definition no_break_space : string := String (ascii_of_nat 160) EmptyString.

(** A platform on which the user's bucket is not there: the listing prints
    the error of [gsutil] and nothing else. *)
Definition bucket_not_found : world :=
  mk_world sample_clock
    (fun c => match c with
              | gsutil_ls_location _ =>
                  ["BucketNotFoundException: 404 gs://no-such-bucket bucket does not exist."]
              | _ => sample_shell c
              end)
    (fun _ _ => false).

(** A platform whose shell commands print nothing. *)
Definition silent : world :=
  mk_world sample_clock (fun _ => []) (fun _ _ => false).

(** A platform on which every SDK call returns. *)
Definition cooperative (W : world) : Prop :=
  forall l k, sdk_raises W l k = false.

(** The kind of a call, without its arguments. *)
Inductive step :=
| step_shell
| step_init
| step_create_job
| step_run_job
| step_create_endpoint
| step_upload
| step_deploy
| step_load_endpoint
| step_predict
| step_delete_job
| step_delete_endpoint
| step_delete_model.

Definition step_of (k : call) : step :=
  match k with
  | Shell _ => step_shell
  | aiplatform_init _ _ _ => step_init
  | Endpoint_create _ => step_create_endpoint
  | Model_upload _ => step_upload
  | Model_deploy _ _ => step_deploy
  | CustomContainerTrainingJob _ _ => step_create_job
  | TrainingJob_run _ _ => step_run_job
  | Endpoint_load _ => step_load_endpoint
  | Endpoint_predict _ _ => step_predict
  | TrainingJob_delete _ => step_delete_job
  | Endpoint_delete _ _ => step_delete_endpoint
  | Model_delete _ => step_delete_model
  end.

(** The entries of the log a returned call leaves, one per item. *)
Definition returned_calls {A} (k : A -> call) (xs : list A) : list event :=
  map (fun x => (k x, Returned)) xs.

(** The service account a call names, if it names one. *)
Definition service_account_of (k : call) : option string :=
  match k with
  | Shell (gsutil_iam_ch account _) => Some account
  | TrainingJob_run _ r => Some (run_service_account r)
  | Model_deploy _ d => Some (dr_service_account d)
  | _ => None
  end.

(** The account the bucket cell reads off [gcloud projects describe]. *)
Definition described_account (W : world) (c : config) : string :=
  match PyString.last_item (shell_output W (gcloud_projects_describe (PROJECT_ID c))) with
  | Some line =>
      match nth_error (PyString.split ":" line) 1 with
      | Some field =>
          PyString.remove_char "'" (PyString.strip field)
          ++ "-compute@developer.gserviceaccount.com"
      | None => EmptyString
      end
  | None => EmptyString
  end.

(** [ran intended l ok]: the log [l] is the calls [intended] made in order,
    each one returning, up to the end ([ok] is true) or up to the first one
    that raised, after which nothing was called ([ok] is false). *)
Inductive ran : list call -> list event -> bool -> Prop :=
| ran_done : ran [] [] true
| ran_step (k : call) (rest : list call) (l : list event) (ok : bool) :
    ran rest l ok -> ran (k :: rest) ((k, Returned) :: l) ok
| ran_stop (k : call) (rest : list call) :
    ran (k :: rest) [(k, Raised)] false.

(** The calls the clean-up cell is written to make. *)
Definition cleanup_calls (c : config) (b : bucket_vars) (g : init_vars)
    (f : finetune_vars) : list call :=
  ([TrainingJob_delete (train_job f)]
   ++ map (fun e => Endpoint_delete e true) (dict_values (endpoints g))
   ++ map Model_delete (dict_values (models g))
   ++ (if delete_bucket c then [Shell (gsutil_rm (BUCKET_URI' b))] else []))%list.

(** * Properties *)

(** ** Strings *)

Example split_uri :
  PyString.split "/" "gs://bucket/dir/x" = ["gs:"; ""; "bucket"; "dir"; "x"].
Proof. reflexivity. Qed.

Example bucket_name_of_uri : bucket_name_of "gs://bucket/dir/x" = "gs://bucket".
Proof. reflexivity. Qed.

Example strip_lower_region :
  PyString.lower (PyString.strip "  EUROPE-west4 ") = "europe-west4".
Proof. reflexivity. Qed.

Example join_staging : PyString.os_path_join "gs://b" "temporal" = "gs://b/temporal".
Proof. reflexivity. Qed.

Example of_int_samples :
  PyString.of_int 7080 = "7080" /\ PyString.of_int (-3) = "-3" /\ PyString.of_int 0 = "0".
Proof. split; [|split]; reflexivity. Qed.

(** The white space below code point 256, as [str.isspace] has it. *)
Example isspace_table :
  filter (fun n => PyString.isspace (ascii_of_nat n)) (seq 0 256)
  = [9; 10; 11; 12; 13; 28; 29; 30; 31; 32; 133; 160]%nat.
Proof. vm_compute. reflexivity. Qed.

(** The characters below code point 256 that [str.lower] changes; each one
    moves up by 32. *)
Example lower_char_table :
  filter (fun n => negb (nat_of_ascii (PyString.lower_char (ascii_of_nat n)) =? n)%nat)
    (seq 0 256)
  = (seq 65 26 ++ seq 192 23 ++ seq 216 7)%list
  /\ forallb (fun n => (nat_of_ascii (PyString.lower_char (ascii_of_nat n)) =? n + 32)%nat)
       (seq 65 26 ++ seq 192 23 ++ seq 216 7)%list
     = true.
Proof. split; vm_compute; reflexivity. Qed.

Lemma prefix_app (p s : string) :
  prefix p s = true <-> exists q, s = p ++ q.
Proof.
  revert s; induction p as [|a p IH]; intros s.
  - split; [intros _; exists s; reflexivity | intros _; destruct s; reflexivity].
  - destruct s as [|b s]; simpl.
    + split; [discriminate | intros [q Hq]; discriminate].
    + destruct (ascii_dec a b) as [->|Hab].
      * rewrite IH. split; intros [q Hq]; exists q; [now rewrite Hq | now inversion Hq].
      * split; [discriminate | intros [q Hq]; inversion Hq; congruence].
Qed.

(** [contains] is Python's substring test. *)
Lemma contains_substring (sub s : string) :
  PyString.contains sub s = true <-> exists p q, s = p ++ sub ++ q.
Proof.
  induction s as [|a s IH]; cbn [PyString.contains].
  - rewrite orb_false_r, prefix_app. split.
    + intros [q Hq]. exists "", q. exact Hq.
    + intros [p [q Hq]]. destruct p; [exists q; exact Hq | discriminate].
  - rewrite orb_true_iff, IH, prefix_app. split.
    + intros [[q Hq] | [p [q Hq]]].
      * exists "", q. exact Hq.
      * exists (String a p), q. simpl. now rewrite Hq.
    + intros [p [q Hq]]. destruct p as [|b p].
      * left. exists q. exact Hq.
      * right. inversion Hq. exists p, q. reflexivity.
Qed.

Lemma list_ascii_of_string_app (a b : string) :
  list_ascii_of_string (a ++ b) = (list_ascii_of_string a ++ list_ascii_of_string b)%list.
Proof. induction a as [|c a IH]; simpl; [reflexivity | now rewrite IH]. Qed.

(** The two messages of the 7B assertions are never the same text. *)
Lemma msg_7b_l4_not_v100 (p : string) : msg_7b_l4 p <> msg_7b_v100.
Proof.
  unfold msg_7b_l4, msg_7b_v100. intros H.
  apply (f_equal list_ascii_of_string) in H.
  rewrite list_ascii_of_string_app in H.
  apply (f_equal (@rev ascii)) in H.
  rewrite rev_app_distr in H.
  vm_compute in H. discriminate H.
Qed.

Lemma msg_machine_type_not_v100 (a : string) : msg_machine_type a <> msg_7b_v100.
Proof. unfold msg_machine_type, msg_7b_v100. simpl. discriminate. Qed.

(** ** The assertions of the Finetune cell *)

Lemma validate_without_7b (m a p : string) :
  PyString.contains "7b" m = false ->
  validate m a p =
    and_then (check (PyString.truthy_opt (select_machine_type a)) (msg_machine_type a))
             (Ok (select_machine_type a)).
Proof. intros H. unfold validate. rewrite H. reflexivity. Qed.

(** The first assertion fires exactly for a 7B model on the V100. *)
Lemma validate_v100_message (m a p : string) :
  validate m a p = Raise (AssertionError msg_7b_v100) <->
  PyString.contains "7b" m = true /\ a = "NVIDIA_TESLA_V100".
Proof.
  split.
  - unfold validate, select_machine_type, check, and_then.
    destruct (PyString.contains "7b" m);
      destruct (a =? "NVIDIA_TESLA_V100") eqn:Ev; simpl;
      try (intros _; split; [reflexivity | now apply String.eqb_eq]);
      destruct (a =? "NVIDIA_L4"); simpl;
      try destruct (p =? "4bit"); simpl;
      try destruct (a =? "NVIDIA_TESLA_A100"); simpl;
      intros H; try discriminate H;
      inversion H as [H1]; exfalso;
      first [ now apply msg_machine_type_not_v100 in H1
            | now apply msg_7b_l4_not_v100 in H1 ].
  - intros [Hm ->]. unfold validate. rewrite Hm. reflexivity.
Qed.

(** C1.  A model whose identifier contains "7b" fails the first assertion on
    the NVIDIA_TESLA_V100 and gets past it on the NVIDIA_L4 and the
    NVIDIA_TESLA_A100; a model whose identifier does not contain "7b" gets
    past it on all three accelerators. *)
Theorem seven_b_rejected_on_v100 (model_id precision_mode : string) :
  (PyString.contains "7b" model_id = true ->
     validate model_id "NVIDIA_TESLA_V100" precision_mode
       = Raise (AssertionError msg_7b_v100)
     /\ validate model_id "NVIDIA_L4" precision_mode
          <> Raise (AssertionError msg_7b_v100)
     /\ validate model_id "NVIDIA_TESLA_A100" precision_mode
          <> Raise (AssertionError msg_7b_v100))
  /\
  (PyString.contains "7b" model_id = false ->
     forall accelerator, In accelerator allowed_accelerators ->
       validate model_id accelerator precision_mode
         <> Raise (AssertionError msg_7b_v100)).
Proof.
  split.
  - intros H7. split; [|split].
    + apply validate_v100_message. auto.
    + rewrite validate_v100_message. intros [_ E]. discriminate E.
    + rewrite validate_v100_message. intros [_ E]. discriminate E.
  - intros H7 a _. rewrite validate_v100_message, H7. intros [E _]. discriminate E.
Qed.

Lemma seven_b_rejected_on_v100_witness :
  (validate "gemma-7b-it" "NVIDIA_TESLA_V100" "4bit" = Raise (AssertionError msg_7b_v100)
   /\ validate "gemma-7b-it" "NVIDIA_L4" "4bit" <> Raise (AssertionError msg_7b_v100)
   /\ validate "gemma-7b-it" "NVIDIA_TESLA_A100" "4bit" <> Raise (AssertionError msg_7b_v100))
  /\ validate "gemma-1.1-2b-it" "NVIDIA_TESLA_V100" "4bit"
       <> Raise (AssertionError msg_7b_v100).
Proof.
  split.
  - apply (proj1 (seven_b_rejected_on_v100 "gemma-7b-it" "4bit")). reflexivity.
  - apply (proj2 (seven_b_rejected_on_v100 "gemma-1.1-2b-it" "4bit")).
    + reflexivity.
    + simpl. auto.
Defined.

(** C2.  With a "7b" model on the NVIDIA_L4 the validation passes when the
    precision mode is "4bit" and raises the precision assertion for any
    other mode; on the NVIDIA_TESLA_A100 each of "4bit", "8bit" and
    "float16" passes. *)
Theorem seven_b_on_l4_needs_4bit (model_id precision_mode : string) :
  PyString.contains "7b" model_id = true ->
  (precision_mode = "4bit" ->
     validate model_id "NVIDIA_L4" precision_mode = Ok (Some "g2-standard-12"))
  /\ (precision_mode <> "4bit" ->
        validate model_id "NVIDIA_L4" precision_mode
          = Raise (AssertionError (msg_7b_l4 precision_mode)))
  /\ (In precision_mode allowed_precision_modes ->
        validate model_id "NVIDIA_TESLA_A100" precision_mode = Ok (Some "a2-highgpu-1g")).
Proof.
  intros H7. unfold validate. rewrite H7. split; [|split].
  - intros ->. reflexivity.
  - intros Hp. apply String.eqb_neq in Hp. simpl. rewrite Hp. reflexivity.
  - intros _. reflexivity.
Qed.

Lemma seven_b_on_l4_needs_4bit_witness :
  (validate "gemma-7b" "NVIDIA_L4" "4bit" = Ok (Some "g2-standard-12"))
  /\ (validate "gemma-7b" "NVIDIA_L4" "8bit" = Raise (AssertionError (msg_7b_l4 "8bit")))
  /\ (validate "gemma-7b" "NVIDIA_TESLA_A100" "float16" = Ok (Some "a2-highgpu-1g")).
Proof.
  split; [|split].
  - apply (seven_b_on_l4_needs_4bit "gemma-7b" "4bit"); reflexivity.
  - apply (seven_b_on_l4_needs_4bit "gemma-7b" "8bit"); [reflexivity | discriminate].
  - apply (seven_b_on_l4_needs_4bit "gemma-7b" "float16"); [reflexivity | simpl; auto].
Defined.



(** ** Rules for [logs] *)

Lemma bind_assoc {A B C} (m : M A) (f : A -> M B) (g : B -> M C) (s : state) :
  bind (bind m f) g s = bind m (fun x => bind (f x) g) s.
Proof. unfold bind. destruct (m s) as [[a|e] s']; reflexivity. Qed.

Section LogRules.

Variable W : world.
Variable P : event -> Prop.

Lemma logs_silent {A} (Q : A -> Prop) (m : M A) :
  (forall s, snd (m s) = s) -> (forall s a, fst (m s) = Ok a -> Q a) -> logs P Q m.
Proof.
  intros Hs Hq s. exists []. rewrite Hs, app_nil_r. repeat split; eauto.
Qed.

Lemma logs_ret {A} (a : A) : logs P (fun x => x = a) (ret a).
Proof. apply logs_silent; [reflexivity | simpl; congruence]. Qed.

Lemma logs_raise {A} (e : exn) : logs P (fun _ : A => False) (raise e).
Proof. apply logs_silent; [reflexivity | simpl; discriminate]. Qed.

Lemma logs_lift {A} (r : result A) : logs P (fun a => r = Ok a) (lift r).
Proof. apply logs_silent; [reflexivity | simpl; auto]. Qed.

Lemma logs_assert (cond : bool) (msg : string) :
  logs P (fun _ => cond = true) (assert_ cond msg).
Proof.
  apply logs_silent; unfold assert_; destruct cond; simpl; auto; discriminate.
Qed.

Lemma logs_index {A} (xs : list A) (i : nat) :
  logs P (fun x => nth_error xs i = Some x) (index xs i).
Proof.
  apply logs_silent; unfold index; destruct (nth_error xs i); simpl; auto;
    [congruence | discriminate].
Qed.

Lemma logs_index_last {A} (xs : list A) :
  logs P (fun x => PyString.last_item xs = Some x) (index_last xs).
Proof.
  apply logs_silent; unfold index_last; destruct (PyString.last_item xs); simpl; auto;
    [congruence | discriminate].
Qed.

Lemma logs_datetime_now : logs P (fun _ => True) (datetime_now W).
Proof. intros s. exists []. simpl. rewrite app_nil_r. auto. Qed.

Lemma logs_sdk (c : call) :
  P (c, Raised) -> P (c, Returned) -> logs P (fun _ => True) (sdk W c).
Proof.
  intros Hr Ho s. unfold sdk. destruct (sdk_raises W (log s) c); simpl;
    eexists; (split; [reflexivity|]); split; auto.
Qed.

Lemma logs_shell (c : shell_cmd) :
  P (Shell c, Returned) -> logs P (fun _ => True) (shell c).
Proof. intros Hc s. simpl. eexists; (split; [reflexivity|]); split; auto. Qed.

Lemma logs_shell_capture (c : shell_cmd) :
  P (Shell c, Returned) -> logs P (fun _ => True) (shell_capture W c).
Proof. intros Hc s. simpl. eexists; (split; [reflexivity|]); split; auto. Qed.

Lemma logs_bind {A B} (Q : A -> Prop) (R : B -> Prop) (m : M A) (f : A -> M B) :
  logs P Q m -> (forall a, Q a -> logs P R (f a)) -> logs P R (bind m f).
Proof.
  intros Hm Hf s. unfold bind.
  destruct (Hm s) as (t1 & E1 & F1 & Hq). destruct (m s) as [[a|e] s1]; simpl in *.
  - destruct (Hf a (Hq a eq_refl) s1) as (t2 & E2 & F2 & Hr).
    exists (t1 ++ t2)%list. rewrite E2, E1, app_assoc. repeat split; auto.
    apply Forall_app; auto.
  - exists t1. repeat split; auto. discriminate.
Qed.

Lemma logs_bind_assoc {A B C} (R : C -> Prop) (m : M A) (f : A -> M B) (g : B -> M C) :
  logs P R (bind m (fun x => bind (f x) g)) -> logs P R (bind (bind m f) g).
Proof. intros H s. rewrite bind_assoc. apply H. Qed.

Lemma logs_weaken {A} (Q Q' : A -> Prop) (m : M A) :
  logs P Q m -> (forall a, Q a -> Q' a) -> logs P Q' m.
Proof.
  intros Hm HQ s. destruct (Hm s) as (t & E & F & Hq). exists t. repeat split; auto.
Qed.

Lemma logs_for_each {A} (xs : list A) (body : A -> M unit) :
  (forall x, In x xs -> logs P (fun _ => True) (body x)) ->
  logs P (fun _ => True) (for_each xs body).
Proof.
  induction xs as [|x xs IH]; intros Hb; simpl.
  - eapply logs_weaken; [apply logs_ret | auto].
  - eapply logs_bind; [apply Hb; simpl; auto|].
    intros _ _. apply IH. intros y Hy. apply Hb. simpl. auto.
Qed.

(** What [logs] says about a whole log. *)
Lemma logs_all {A} (Q : A -> Prop) (m : M A) (s : state) :
  logs P Q m -> Forall P (log s) -> Forall P (log (snd (m s))).
Proof.
  intros Hm Hs. destruct (Hm s) as (t & E & F & _). rewrite E. apply Forall_app; auto.
Qed.

Lemma logs_keeps {A} (Q : A -> Prop) (m : M A) (s : state) (ev : event) :
  logs P Q m -> In ev (log s) -> In ev (log (snd (m s))).
Proof.
  intros Hm Hs. destruct (Hm s) as (t & E & _). rewrite E. apply in_or_app; auto.
Qed.

Lemma logs_never_returns {A} (m : M A) (s : state) (a : A) :
  logs P (fun _ => False) m -> fst (m s) <> Ok a.
Proof. intros Hm H. destruct (Hm s) as (t & _ & _ & Hq). exact (Hq a H). Qed.

End LogRules.

(** [logs_prim] applies the rule of a primitive step.  [logs_walk close]
    follows a computation along its binds and branches, with the first
    argument of a bind brought to the front by associativity, so that what
    a step returns is known to the steps after it; [close] disposes of the
    branches that the hypotheses rule out. *)
Ltac logs_prim :=
  first [ apply logs_ret | apply logs_raise | apply logs_lift | apply logs_assert
        | apply logs_index | apply logs_index_last | apply logs_datetime_now
        | apply logs_sdk | apply logs_shell | apply logs_shell_capture ].

Ltac logs_walk close :=
  cbv beta iota zeta;
  lazymatch goal with
  | |- logs _ _ (bind ?m _) =>
      lazymatch m with
      | bind _ _ => apply logs_bind_assoc; logs_walk close
      | (if ?b then _ else _) =>
          let E := fresh "E" in
          destruct b eqn:E; first [ solve [close] | logs_walk close ]
      | for_each _ _ =>
          eapply logs_bind;
          [ apply logs_for_each; intros ? ?; first [ solve [close] | logs_walk close ]
          | intros _ _; first [ solve [close] | logs_walk close ] ]
      | _ =>
          eapply logs_bind;
          [ logs_prim
          | let a := fresh "a" in let Ha := fresh "Ha" in
            intros a Ha; cbv beta in Ha; try subst a;
            first [ solve [close] | logs_walk close ] ]
      end
  | |- logs _ _ (if ?b then _ else _) =>
      let E := fresh "E" in
      destruct b eqn:E; first [ solve [close] | logs_walk close ]
  | |- logs _ _ (for_each _ _) =>
      eapply logs_weaken;
      [ apply logs_for_each; intros ? ?; first [ solve [close] | logs_walk close ]
      | cbv beta; intros; auto ]
  | |- logs _ _ _ =>
      eapply logs_weaken; [ logs_prim | cbv beta; intros; auto ]
  end.

(** ** How the monad runs *)

Lemma bind_ok {A B} (m : M A) (f : A -> M B) (s s' : state) (a : A) :
  m s = (Ok a, s') -> bind m f s = f a s'.
Proof. intros H. unfold bind. now rewrite H. Qed.

Lemma bind_raise {A B} (m : M A) (f : A -> M B) (s s' : state) (e : exn) :
  m s = (Raise e, s') -> bind m f s = (Raise e, s').
Proof. intros H. unfold bind. now rewrite H. Qed.

Lemma skipn_length_app {A} (l r : list A) : skipn (List.length l) (l ++ r)%list = r.
Proof. induction l; simpl; auto. Qed.

(** ** The order of validation and submission *)

Ltac unfold_cells :=
  unfold run_all, cell_project, cell_enable_apis, cell_bucket, choose_bucket,
    cell_init, cell_finetune, cell_deploy, deploy_model_vllm, cell_predict,
    cell_cleanup, get_job_name_with_datetime.

Lemma validate_raises_assertion (m a p : string) (e : exn) :
  validate m a p = Raise e ->
  e = AssertionError msg_7b_v100 \/ e = AssertionError (msg_7b_l4 p)
  \/ e = AssertionError (msg_machine_type a).
Proof.
  unfold validate, check, and_then.
  destruct (PyString.contains "7b" m);
    destruct (negb (a =? "NVIDIA_TESLA_V100"));
    destruct (a =? "NVIDIA_L4");
    try destruct (p =? "4bit");
    destruct (PyString.truthy_opt (select_machine_type a));
    intros H; inversion H; auto.
Qed.

(** C6.  When one of the three assertions fails, the Finetune cell stops
    there: it raises that assertion and leaves the log as it found it, and
    the log of the whole run holds neither the creation of the training job
    nor its submission. *)
Theorem failed_validation_submits_nothing (W : world) (c : config) (e : exn) :
  validate (MODEL_ID c) (ACCELERATOR_TYPE c) (finetuning_precision_mode c) = Raise e ->
  (e = AssertionError msg_7b_v100
   \/ e = AssertionError (msg_7b_l4 (finetuning_precision_mode c))
   \/ e = AssertionError (msg_machine_type (ACCELERATOR_TYPE c)))
  /\ (forall b s, cell_finetune W c b s = (Raise e, s))
  /\ (forall ev, In ev (log (snd (run_all W c initial_state))) ->
        is_training_call (fst ev) = false).
Proof.
  intros H. split; [|split].
  - eapply validate_raises_assertion; eauto.
  - intros b s. unfold cell_finetune. cbv zeta.
    apply bind_raise. unfold lift. now rewrite H.
  - assert (L : logs (fun ev => is_training_call (fst ev) = false)
                     (fun _ => True) (run_all W c)).
    { unfold_cells. logs_walk ltac:(congruence). all: try reflexivity. }
    apply Forall_forall. apply (logs_all _ _ _ _ L). constructor.
Qed.

Lemma failed_validation_submits_nothing_witness :
  cell_finetune calm
    (form (Some "gs://") "hf_abc" "gemma-7b" "NVIDIA_TESLA_V100" "4bit" "" false)
    sample_bucket_vars initial_state
  = (Raise (AssertionError msg_7b_v100), initial_state)
  /\ forallb (fun ev => negb (is_training_call (fst ev)))
       (log (snd (run_all calm
                    (form (Some "gs://") "hf_abc" "gemma-7b" "NVIDIA_TESLA_V100" "4bit"
                       "" false)
                    initial_state))) = true.
Proof.
  destruct (failed_validation_submits_nothing calm
              (form (Some "gs://") "hf_abc" "gemma-7b" "NVIDIA_TESLA_V100" "4bit" "" false)
              (AssertionError msg_7b_v100) eq_refl) as (_ & Hcell & Hlog).
  split.
  - apply Hcell.
  - apply forallb_forall. intros ev Hev. now rewrite (Hlog ev Hev).
Defined.

(** ** Time stamps and names *)

Lemma sdk_returns (W : world) (c : call) (s : state) :
  sdk_raises W (log s) c = false ->
  sdk W c s = (Ok (List.length (log s)),
               mk_state (log s ++ [(c, Returned)])%list (clock_reads s)).
Proof. intros H. unfold sdk. now rewrite H. Qed.

Lemma sdk_fails (W : world) (c : call) (s : state) :
  sdk_raises W (log s) c = true ->
  sdk W c s = (Raise (SdkError c),
               mk_state (log s ++ [(c, Raised)])%list (clock_reads s)).
Proof. intros H. unfold sdk. now rewrite H. Qed.

Lemma job_name_eq (W : world) (prefix : string) (s : state) :
  get_job_name_with_datetime W prefix s
  = (Ok (prefix ++ "_" ++ YYYYMMDD_HHMMSS (now W (clock_reads s))),
     mk_state (log s) (S (clock_reads s))).
Proof. reflexivity. Qed.

Lemma digit_value_char (k : nat) : (k < 10)%nat -> digit_value (digit_char k) = Some k.
Proof.
  intros H. do 10 (destruct k as [|k]; [reflexivity|]). lia.
Qed.

(** [digits w n] is the numeral of [n] on [w] digits. *)
Lemma read_digits (w n acc : nat) (rest : string) :
  read_decimal_from acc (digits w n rest)
  = read_decimal_from (acc * 10 ^ w + n mod 10 ^ w)%nat rest.
Proof.
  revert n acc rest. induction w as [|w IH]; intros n acc rest.
  - simpl digits. f_equal. rewrite Nat.pow_0_r, Nat.mod_1_r. lia.
  - cbn [digits]. rewrite IH. cbn [read_decimal_from].
    rewrite digit_value_char by (apply Nat.mod_upper_bound; lia).
    f_equal. rewrite Nat.pow_succ_r'.
    rewrite (Nat.Div0.mod_mul_r n 10 (10 ^ w)). lia.
Qed.

Lemma read_digits_small (w n : nat) :
  (n < 10 ^ w)%nat -> read_decimal (digits w n "") = Some n.
Proof.
  intros H. unfold read_decimal. rewrite read_digits. simpl read_decimal_from.
  rewrite Nat.mod_small by exact H. reflexivity.
Qed.

Lemma length_digits (w n : nat) (rest : string) :
  String.length (digits w n rest) = (w + String.length rest)%nat.
Proof.
  revert n rest. induction w as [|w IH]; intros n rest; simpl; [reflexivity|].
  rewrite IH. simpl. lia.
Qed.

Lemma string_app_inj (a a' b b' : string) :
  String.length a = String.length a' -> a ++ b = a' ++ b' -> a = a' /\ b = b'.
Proof.
  revert a'. induction a as [|x a IH]; intros [|x' a'] Hl H; simpl in *;
    try discriminate; auto.
  inversion H. destruct (IH a') as [-> ->]; auto.
Qed.

Lemma string_app_empty_r (a : string) : a ++ "" = a.
Proof. induction a; simpl; congruence. Qed.

Lemma string_app_cancel (a x y : string) : a ++ x = a ++ y -> x = y.
Proof. induction a; simpl; intros H; [exact H | inversion H; auto]. Qed.

Lemma digits_field_inj (w n n' : nat) (b b' : string) :
  (n < 10 ^ w)%nat -> (n' < 10 ^ w)%nat ->
  digits w n "" ++ b = digits w n' "" ++ b' -> n = n' /\ b = b'.
Proof.
  intros Hn Hn' H.
  apply string_app_inj in H; [|now rewrite !length_digits].
  destruct H as [Hd Hb]. split; [|exact Hb].
  apply (f_equal read_decimal) in Hd.
  rewrite !read_digits_small in Hd by assumption. congruence.
Qed.

(** Two readings of the clock with the same timestamp are the same reading. *)
Lemma timestamp_inj (d d' : datetime) :
  valid_datetime d -> valid_datetime d' ->
  YYYYMMDDHHMMSS d = YYYYMMDDHHMMSS d' -> d = d'.
Proof.
  unfold valid_datetime, YYYYMMDDHHMMSS.
  destruct d as [y m dd h mi s], d' as [y' m' dd' h' mi' s'];
    cbn [year month day hour minute second].
  intros V V' H.
  assert (P2 : (10 ^ 2 = 100)%nat) by reflexivity.
  apply digits_field_inj in H; [|lia|lia]. destruct H as [-> H].
  apply digits_field_inj in H; [|lia|lia]. destruct H as [-> H].
  apply digits_field_inj in H; [|lia|lia]. destruct H as [-> H].
  apply digits_field_inj in H; [|lia|lia]. destruct H as [-> H].
  apply digits_field_inj in H; [|lia|lia]. destruct H as [-> H].
  rewrite <- (string_app_empty_r (digits 2 s "")) in H.
  rewrite <- (string_app_empty_r (digits 2 s' "")) in H.
  apply digits_field_inj in H; [|lia|lia]. destruct H as [-> _].
  reflexivity.
Qed.

(** The timestamp is fifteen characters: the year on four digits, month
    and day on two each, an underscore, then hour, minute and second on two
    digits each; every group reads back as the field it came from. *)
Lemma timestamp_shape (d : datetime) :
  valid_datetime d ->
  String.length (YYYYMMDD_HHMMSS d) = 15%nat
  /\ read_decimal (substring 0 4 (YYYYMMDD_HHMMSS d)) = Some (year d)
  /\ read_decimal (substring 4 2 (YYYYMMDD_HHMMSS d)) = Some (month d)
  /\ read_decimal (substring 6 2 (YYYYMMDD_HHMMSS d)) = Some (day d)
  /\ substring 8 1 (YYYYMMDD_HHMMSS d) = "_"
  /\ read_decimal (substring 9 2 (YYYYMMDD_HHMMSS d)) = Some (hour d)
  /\ read_decimal (substring 11 2 (YYYYMMDD_HHMMSS d)) = Some (minute d)
  /\ read_decimal (substring 13 2 (YYYYMMDD_HHMMSS d)) = Some (second d).
Proof.
  intros V. unfold valid_datetime in V.
  assert (P2 : (10 ^ 2 = 100)%nat) by reflexivity.
  split; [reflexivity|].
  split; [change (substring 0 4 (YYYYMMDD_HHMMSS d)) with (digits 4 (year d) "");
          apply read_digits_small; lia|].
  split; [change (substring 4 2 (YYYYMMDD_HHMMSS d)) with (digits 2 (month d) "");
          apply read_digits_small; lia|].
  split; [change (substring 6 2 (YYYYMMDD_HHMMSS d)) with (digits 2 (day d) "");
          apply read_digits_small; lia|].
  split; [reflexivity|].
  split; [change (substring 9 2 (YYYYMMDD_HHMMSS d)) with (digits 2 (hour d) "");
          apply read_digits_small; lia|].
  split; [change (substring 11 2 (YYYYMMDD_HHMMSS d)) with (digits 2 (minute d) "");
          apply read_digits_small; lia|].
  change (substring 13 2 (YYYYMMDD_HHMMSS d)) with (digits 2 (second d) "").
  apply read_digits_small; lia.
Qed.

Example sample_bucket_vars_run :
  fst (cell_bucket calm notebook_defaults (mk_state [] 0)) = Ok sample_bucket_vars.
Proof. reflexivity. Qed.

Example job_name_sample :
  fst (get_job_name_with_datetime calm "gemma-lora-train" (mk_state [] 3))
  = Ok "gemma-lora-train_20240305_102033".
Proof. reflexivity. Qed.

(** C5.  [get_job_name_with_datetime] returns the prefix, an underscore and
    the clock reading as YYYYMMDD_HHMMSS (fifteen characters whose digit
    groups read back as the fields of the reading), and nothing else enters
    the result; a Finetune cell that runs to its end has named the training
    job, the adapter directory and the merged-model directory this way from
    "gemma-lora-train", "gemma-lora-adapter" and "gemma-merged-model", each
    with its own reading of the clock. *)
Theorem names_are_prefix_and_timestamp (W : world) :
  (forall prefix s,
     get_job_name_with_datetime W prefix s
     = (Ok (prefix ++ "_" ++ YYYYMMDD_HHMMSS (now W (clock_reads s))),
        mk_state (log s) (S (clock_reads s))))
  /\
  (forall d,
     valid_datetime d ->
     String.length (YYYYMMDD_HHMMSS d) = 15%nat
     /\ read_decimal (substring 0 4 (YYYYMMDD_HHMMSS d)) = Some (year d)
     /\ read_decimal (substring 4 2 (YYYYMMDD_HHMMSS d)) = Some (month d)
     /\ read_decimal (substring 6 2 (YYYYMMDD_HHMMSS d)) = Some (day d)
     /\ substring 8 1 (YYYYMMDD_HHMMSS d) = "_"
     /\ read_decimal (substring 9 2 (YYYYMMDD_HHMMSS d)) = Some (hour d)
     /\ read_decimal (substring 11 2 (YYYYMMDD_HHMMSS d)) = Some (minute d)
     /\ read_decimal (substring 13 2 (YYYYMMDD_HHMMSS d)) = Some (second d))
  /\
  (forall c b s f s',
     cell_finetune W c b s = (Ok f, s') ->
     job_name f = "gemma-lora-train" ++ "_" ++ YYYYMMDD_HHMMSS (now W (clock_reads s))
     /\ lora_adapter_dir f
        = "gemma-lora-adapter" ++ "_" ++ YYYYMMDD_HHMMSS (now W (1 + clock_reads s))
     /\ merged_model_dir f
        = "gemma-merged-model" ++ "_" ++ YYYYMMDD_HHMMSS (now W (2 + clock_reads s))
     /\ job_display_name (train_job f) = job_name f
     /\ lora_output_dir f = PyString.os_path_join (STAGING_BUCKET b) (lora_adapter_dir f)
     /\ merged_model_output_dir f
        = PyString.os_path_join (STAGING_BUCKET b) (merged_model_dir f)).
Proof.
  split; [intros; apply job_name_eq|].
  split; [apply timestamp_shape|].
  intros c b s f s' H. unfold cell_finetune in H. cbv zeta in H.
  destruct (validate (MODEL_ID c) (ACCELERATOR_TYPE c) (finetuning_precision_mode c))
    as [mt|e0].
  2:{ erewrite bind_raise in H by reflexivity. discriminate H. }
  erewrite bind_ok in H by reflexivity.
  erewrite bind_ok in H by apply job_name_eq.
  cbv beta in H.
  match type of H with
  | bind (sdk W ?k) _ ?st = _ => destruct (sdk_raises W (log st) k) eqn:E1
  end.
  { erewrite bind_raise in H by (apply sdk_fails; exact E1). discriminate H. }
  erewrite bind_ok in H by (apply sdk_returns; exact E1).
  erewrite bind_ok in H by apply job_name_eq.
  erewrite bind_ok in H by apply job_name_eq.
  cbv beta in H.
  match type of H with
  | bind (sdk W ?k) _ ?st = _ => destruct (sdk_raises W (log st) k) eqn:E2
  end.
  { erewrite bind_raise in H by (apply sdk_fails; exact E2). discriminate H. }
  erewrite bind_ok in H by (apply sdk_returns; exact E2).
  unfold ret in H. inversion H; subst; clear H.
  cbn [job_name lora_adapter_dir merged_model_dir train_job job_display_name
       lora_output_dir merged_model_output_dir clock_reads plus].
  repeat (split; [reflexivity|]). reflexivity.
Qed.

Lemma names_are_prefix_and_timestamp_witness :
  (exists f s',
     cell_finetune calm notebook_defaults sample_bucket_vars (mk_state [] 1) = (Ok f, s')
     /\ job_name f = "gemma-lora-train_20240305_102031"
     /\ lora_adapter_dir f = "gemma-lora-adapter_20240305_102032"
     /\ merged_model_dir f = "gemma-merged-model_20240305_102033")
  /\ read_decimal (substring 0 4 (YYYYMMDD_HHMMSS (sample_clock 1))) = Some 2024%nat.
Proof.
  split.
  - destruct (cell_finetune calm notebook_defaults sample_bucket_vars (mk_state [] 1))
      as [[f|e] s'] eqn:E.
    + exists f, s'. split; [reflexivity|].
      destruct (proj2 (proj2 (names_are_prefix_and_timestamp calm)) _ _ _ _ _ E)
        as (H1 & H2 & H3 & _).
      rewrite H1, H2, H3. repeat split; reflexivity.
    + vm_compute in E. discriminate E.
  - apply (proj1 (proj2 (names_are_prefix_and_timestamp calm)) (sample_clock 1)).
    unfold valid_datetime, sample_clock. cbn [year month day hour minute second].
    assert (P4 : (2024 < 10 ^ 4)%nat) by (apply Nat.ltb_lt; vm_compute; reflexivity).
    lia.
Defined.

(** ** The Predict cell *)

Lemma predict_requests_app (l r : list event) :
  predict_requests (l ++ r)%list = (predict_requests l ++ predict_requests r)%list.
Proof.
  induction l as [|[c o] l IH]; simpl; [reflexivity|].
  destruct c; simpl; rewrite ?IH; reflexivity.
Qed.

Lemma cell_predict_log (W : world) (c : config) (endpoint0 : endpoint) (s : state) :
  (PyString.truthy (ENDPOINT_NAME c) = true ->
   sdk_raises W (log s) (Endpoint_load (aip_endpoint_name c)) = false) ->
  exists o,
    emitted (cell_predict W c endpoint0) s
    = ((if PyString.truthy (ENDPOINT_NAME c)
        then [(Endpoint_load (aip_endpoint_name c), Returned)] else [])
       ++ [(Endpoint_predict (predict_target c endpoint0) (predict_instances c), o)])%list.
Proof.
  intros Hload. unfold emitted, cell_predict, predict_target.
  destruct (PyString.truthy (ENDPOINT_NAME c)).
  - erewrite bind_ok
      by (erewrite bind_ok by (apply sdk_returns; auto); reflexivity).
    cbv beta zeta.
    match goal with
    | |- context [bind (sdk W ?k) _ ?st] => destruct (sdk_raises W (log st) k) eqn:E
    end.
    + erewrite bind_raise by (apply sdk_fails; exact E).
      exists Raised. cbn [snd log]. rewrite <- app_assoc. apply skipn_length_app.
    + erewrite bind_ok by (apply sdk_returns; exact E).
      exists Returned. cbn [ret snd log]. rewrite <- app_assoc. apply skipn_length_app.
  - erewrite bind_ok by reflexivity. cbv beta zeta.
    destruct (sdk_raises W (log s)
                (Endpoint_predict endpoint0 (predict_instances c))) eqn:E.
    + erewrite bind_raise by (apply sdk_fails; exact E).
      exists Raised. cbn [snd log]. apply skipn_length_app.
    + erewrite bind_ok by (apply sdk_returns; exact E).
      exists Returned. cbn [ret snd log]. apply skipn_length_app.
Qed.

(** C7.  The Predict cell calls [endpoint.predict] once, with a list of one
    object whose keys are prompt, max_tokens, temperature, top_p and top_k
    and whose prompt is the user's prompt between "### Human: " and
    "### Assistant: ".  (When the form names an endpoint, that endpoint is
    loaded first; the statement is about a cell in which that load returns.) *)
Theorem predict_sends_one_request
    (W : world) (c : config) (endpoint0 : endpoint) (s : state) :
  (PyString.truthy (ENDPOINT_NAME c) = true ->
   sdk_raises W (log s) (Endpoint_load (aip_endpoint_name c)) = false) ->
  exists obj,
    predict_requests (emitted (cell_predict W c endpoint0) s)
      = [(predict_target c endpoint0, [obj])]
    /\ dict_keys obj = ["prompt"; "max_tokens"; "temperature"; "top_p"; "top_k"]
    /\ dict_get obj "prompt" = Some (VStr ("### Human: " ++ prompt c ++ "### Assistant: "))
    /\ dict_get obj "max_tokens" = Some (VInt (max_tokens c))
    /\ dict_get obj "temperature" = Some (VFloat (temperature c))
    /\ dict_get obj "top_p" = Some (VFloat (top_p c))
    /\ dict_get obj "top_k" = Some (VInt (top_k c)).
Proof.
  intros Hload.
  destruct (cell_predict_log W c endpoint0 s Hload) as [o ->].
  eexists. split.
  - rewrite predict_requests_app.
    destruct (PyString.truthy (ENDPOINT_NAME c)); reflexivity.
  - repeat (split; [reflexivity|]). reflexivity.
Qed.

Lemma predict_sends_one_request_witness :
  exists obj,
    predict_requests
      (emitted (cell_predict calm
                  (form (Some "gs://") "hf_abc" "gemma-2b" "NVIDIA_L4" "4bit"
                     "1234567890123456789" false)
                  (CreatedEndpoint 8 "gemma-vllm-serve_20240305_102034-endpoint"))
               initial_state)
    = [(LoadedEndpoint
          "projects/crafty-progress-421108/locations/europe-west4/endpoints/1234567890123456789",
        [obj])]
    /\ dict_keys obj = ["prompt"; "max_tokens"; "temperature"; "top_p"; "top_k"].
Proof.
  destruct (predict_sends_one_request calm
              (form (Some "gs://") "hf_abc" "gemma-2b" "NVIDIA_L4" "4bit"
                 "1234567890123456789" false)
              (CreatedEndpoint 8 "gemma-vllm-serve_20240305_102034-endpoint")
              initial_state)
    as (obj & H1 & H2 & _).
  - intros _. reflexivity.
  - exists obj. split; [exact H1 | exact H2].
Defined.

(** Whatever the platform does, the cell asks for at most one prediction. *)
Lemma cell_predict_at_most_one_request
    (W : world) (c : config) (endpoint0 : endpoint) (s : state) :
  (List.length (predict_requests (emitted (cell_predict W c endpoint0) s)) <= 1)%nat.
Proof.
  destruct (PyString.truthy (ENDPOINT_NAME c)) eqn:T.
  - destruct (sdk_raises W (log s) (Endpoint_load (aip_endpoint_name c))) eqn:E.
    + unfold emitted, cell_predict. rewrite T.
      erewrite bind_raise
        by (erewrite bind_raise by (apply sdk_fails; exact E); reflexivity).
      cbn [snd log]. rewrite skipn_length_app. simpl. lia.
    + destruct (cell_predict_log W c endpoint0 s (fun _ => E)) as [o ->].
      rewrite predict_requests_app, T. simpl. lia.
  - destruct (cell_predict_log W c endpoint0 s) as [o ->]; [congruence|].
    rewrite predict_requests_app, T. simpl. lia.
Qed.

(** ** [deploy_model_vllm] *)

Lemma without_nil (have : list resource) : without [] have = have.
Proof.
  unfold without. induction have as [|r have IH]; simpl in *; [reflexivity | now rewrite IH].
Qed.

Lemma live_from_app (l r : list event) (i : nat) (have : list resource) :
  live_from i (l ++ r)%list have = live_from (i + List.length l) r (live_from i l have).
Proof.
  revert i have. induction l as [|ev l IH]; intros i have; simpl.
  - now rewrite Nat.add_0_r.
  - rewrite IH. f_equal. lia.
Qed.

Lemma live_app (l r : list event) :
  live (l ++ r)%list = live_from (List.length l) r (live l).
Proof. unfold live. now rewrite live_from_app. Qed.

(** C8.  [deploy_model_vllm] creates the endpoint first.  When that call
    has returned and the function then raises, it is [Model.upload] or
    [model.deploy] that raised; the endpoint "<model_name>-endpoint" exists
    by then, the function has issued no call that deletes it, and it is
    among the resources the log leaves behind. *)
Theorem deploy_failure_leaves_endpoint
    (W : world) (hf_token : option string)
    (model_name model_id service_account : string) (base_model_id : option string)
    (machine_type accelerator_type : string) (accelerator_count : Z)
    (gpu_memory_utilization : pyfloat) (max_model_len : Z) (dtype : string)
    (s s' : state) (e : exn) :
  let deploy :=
    deploy_model_vllm W hf_token model_name model_id service_account base_model_id
      machine_type accelerator_type accelerator_count gpu_memory_utilization
      max_model_len dtype in
  sdk_raises W (log s) (Endpoint_create (model_name ++ "-endpoint")) = false ->
  deploy s = (Raise e, s') ->
  (exists u o rest,
     emitted deploy s
       = (Endpoint_create (model_name ++ "-endpoint"), Returned)
         :: (Model_upload u, o) :: rest
     /\ display_name u = model_name
     /\ (e = SdkError (Model_upload u) \/ exists m d, e = SdkError (Model_deploy m d)))
  /\ (forall ev, In ev (emitted deploy s) -> is_endpoint_delete (fst ev) = false)
  /\ In (EndpointResource
           (CreatedEndpoint (List.length (log s)) (model_name ++ "-endpoint")))
        (live (log s')).
Proof.
  intros deploy Hcreate Hrun. subst deploy. unfold emitted.
  rewrite Hrun. unfold deploy_model_vllm in Hrun. cbv zeta in Hrun.
  erewrite bind_ok in Hrun by (apply sdk_returns; exact Hcreate).
  cbv beta in Hrun.
  match type of Hrun with
  | bind (sdk W ?k) _ ?st = _ => destruct (sdk_raises W (log st) k) eqn:E1
  end.
  { erewrite bind_raise in Hrun by (apply sdk_fails; exact E1).
    inversion Hrun; subst; clear Hrun. cbn [snd log].
    rewrite <- app_assoc, skipn_length_app. split; [|split].
    - eexists _, Raised, []. split; [reflexivity|]. split; [reflexivity|]. left. reflexivity.
    - intros ev [<-|[<-|[]]]; reflexivity.
    - rewrite live_app. cbn [live_from created_by deleted_by app].
      rewrite !without_nil, !in_app_iff. simpl. auto 10. }
  erewrite bind_ok in Hrun by (apply sdk_returns; exact E1).
  cbv beta in Hrun.
  match type of Hrun with
  | bind (sdk W ?k) _ ?st = _ => destruct (sdk_raises W (log st) k) eqn:E2
  end.
  { erewrite bind_raise in Hrun by (apply sdk_fails; exact E2).
    inversion Hrun; subst; clear Hrun. cbn [snd log].
    rewrite <- !app_assoc, skipn_length_app. split; [|split].
    - eexists _, Returned, [_]. split; [reflexivity|]. split; [reflexivity|].
      right. eexists _, _. reflexivity.
    - intros ev [<-|[<-|[<-|[]]]]; reflexivity.
    - rewrite live_app. cbn [live_from created_by deleted_by app].
      rewrite !without_nil, !in_app_iff. simpl. auto 10. }
  erewrite bind_ok in Hrun by (apply sdk_returns; exact E2).
  discriminate Hrun.
Qed.

Lemma deploy_failure_leaves_endpoint_witness :
  exists e s',
    deploy_model_vllm upload_fails (Some "hf_abc") "gemma-vllm-serve_20240305_102034"
      "gs://b/temporal/gemma-merged-model_20240305_102033"
      "123456789012-compute@developer.gserviceaccount.com" (Some "google/gemma-2b")
      "g2-standard-12" "NVIDIA_L4" 1 "0.9" 2048 "auto" initial_state
    = (Raise e, s')
    /\ In (EndpointResource
             (CreatedEndpoint 0 "gemma-vllm-serve_20240305_102034-endpoint"))
          (live (log s')).
Proof.
  destruct (deploy_model_vllm upload_fails (Some "hf_abc")
              "gemma-vllm-serve_20240305_102034"
              "gs://b/temporal/gemma-merged-model_20240305_102033"
              "123456789012-compute@developer.gserviceaccount.com"
              (Some "google/gemma-2b")
              "g2-standard-12" "NVIDIA_L4" 1 "0.9" 2048 "auto" initial_state)
    as [[me|e] s'] eqn:E.
  - vm_compute in E. discriminate E.
  - exists e, s'. split; [reflexivity|].
    destruct (deploy_failure_leaves_endpoint upload_fails (Some "hf_abc")
                "gemma-vllm-serve_20240305_102034"
                "gs://b/temporal/gemma-merged-model_20240305_102033"
                "123456789012-compute@developer.gserviceaccount.com"
                (Some "google/gemma-2b")
                "g2-standard-12" "NVIDIA_L4" 1 "0.9" 2048 "auto"
                initial_state s' e eq_refl E) as (_ & _ & H).
    exact H.
Defined.

(** ** The bucket cell *)

Lemma bucket_unset_cases (b : option string) :
  bucket_unset b = true <->
  b = None \/ exists u, b = Some u /\ (PyString.strip u = "" \/ u = "gs://").
Proof.
  destruct b as [u|]; simpl.
  - rewrite orb_true_iff, !String.eqb_eq. split.
    + intros H. right. exists u. auto.
    + intros [H|[u' [H1 H2]]]; [discriminate | inversion H1; subst; exact H2].
  - split; auto.
Qed.

Lemma bucket_set (u : string) :
  PyString.strip u <> "" -> u <> "gs://" -> bucket_unset (Some u) = false.
Proof.
  intros H1 H2. simpl. apply String.eqb_neq in H1, H2. now rewrite H1, H2.
Qed.

(** Lower-casing twice is lower-casing once. *)
Lemma lower_char_idem (c : ascii) : PyString.lower_char (PyString.lower_char c) = PyString.lower_char c.
Proof.
  destruct c as [[] [] [] [] [] [] [] []]; reflexivity.
Qed.

Lemma lower_idem (s : string) : PyString.lower (PyString.lower s) = PyString.lower s.
Proof. induction s; simpl; [reflexivity | now rewrite lower_char_idem, IHs]. Qed.

(** A region that differs from [REGION] whatever the case of the letters
    differs from it after lower-casing. *)
Lemma differs_ignoring_case (bucket_region region : string) :
  PyString.lower bucket_region <> PyString.lower region ->
  PyString.lower bucket_region <> region.
Proof. intros H E. apply H. rewrite <- E. now rewrite lower_idem. Qed.

Lemma choose_bucket_bad_prefix (W : world) (c : config) (u : string) (s : state) :
  BUCKET_URI c = Some u -> bucket_unset (Some u) = false ->
  PyString.startswith u "gs://" = false ->
  choose_bucket W c s
  = (Raise (AssertionError msg_bucket_prefix), mk_state (log s) (S (clock_reads s))).
Proof.
  intros HB HU HP. unfold choose_bucket.
  erewrite bind_ok by reflexivity. cbv beta zeta.
  rewrite HB, HU, HP. reflexivity.
Qed.

Lemma choose_bucket_bad_region (W : world) (c : config) (u line : string)
    (rest : list string) (s : state) :
  BUCKET_URI c = Some u -> bucket_unset (Some u) = false ->
  PyString.startswith u "gs://" = true ->
  shell_output W (gsutil_ls_location (bucket_name_of u)) = line :: rest ->
  PyString.lower (PyString.strip line) <> REGION c ->
  choose_bucket W c s
  = (Raise (ValueError
              (msg_bucket_region (PyString.lower (PyString.strip line)) (REGION c))),
     mk_state (log s ++ [(Shell (gsutil_ls_location (bucket_name_of u)), Returned)])%list
              (S (clock_reads s))).
Proof.
  intros HB HU HP HO HR. unfold choose_bucket.
  erewrite bind_ok by reflexivity. cbv beta zeta.
  rewrite HB, HU, HP.
  erewrite bind_ok by reflexivity.
  erewrite bind_ok by reflexivity. cbv beta.
  rewrite HO. erewrite bind_ok by reflexivity. cbv beta.
  apply String.eqb_neq in HR. rewrite HR. reflexivity.
Qed.

Lemma choose_bucket_fresh (W : world) (c : config) (s : state) :
  bucket_unset (BUCKET_URI c) = true ->
  let uri := "gs://" ++ PROJECT_ID c ++ "-tmp-" ++ YYYYMMDDHHMMSS (now W (clock_reads s)) in
  choose_bucket W c s
  = (Ok uri,
     mk_state (log s ++ [(Shell (gsutil_mb (REGION c) uri), Returned)])%list
              (S (clock_reads s))).
Proof.
  intros HU uri. unfold choose_bucket.
  erewrite bind_ok by reflexivity. cbv beta zeta.
  rewrite HU. reflexivity.
Qed.

Lemma run_all_stops_in_bucket_cell (W : world) (c : config) (e : exn) (s' : state) :
  choose_bucket W c (mk_state (preamble c) 0) = (Raise e, s') ->
  run_all W c initial_state = (Raise e, s').
Proof.
  intros H. unfold run_all.
  erewrite bind_ok by reflexivity.
  erewrite bind_ok by reflexivity.
  apply bind_raise. unfold cell_bucket. apply bind_raise. exact H.
Qed.

Lemma fresh_bucket_name_inj (project : string) (d d' : datetime) :
  valid_datetime d -> valid_datetime d' ->
  "gs://" ++ project ++ "-tmp-" ++ YYYYMMDDHHMMSS d
    = "gs://" ++ project ++ "-tmp-" ++ YYYYMMDDHHMMSS d' ->
  d = d'.
Proof.
  intros V V' H.
  apply string_app_cancel, string_app_cancel, string_app_cancel in H.
  now apply timestamp_inj.
Qed.

(** C9.  A bucket the user supplies (not None, not blank, not "gs://") is
    checked in the bucket cell: without the "gs://" prefix the run stops
    with the AssertionError, and with a region that, lower-cased, is not
    REGION it stops with the ValueError; in both runs the log holds shell
    commands only, so Vertex AI is not initialised and no job is submitted,
    and in no run with such a bucket is a bucket created.  A bucket is
    created exactly when the field is None, blank or "gs://"; it is named
    after the project and the clock reading, and two valid readings give
    two names. *)
Theorem bucket_uri_is_checked_first (W : world) (c : config) :
  (forall u,
     BUCKET_URI c = Some u -> PyString.strip u <> "" -> u <> "gs://" ->
     (PyString.startswith u "gs://" = false ->
        run_all W c initial_state
        = (Raise (AssertionError msg_bucket_prefix), mk_state (preamble c) 1))
     /\ (PyString.startswith u "gs://" = true ->
         forall line rest,
           shell_output W (gsutil_ls_location (bucket_name_of u)) = line :: rest ->
           PyString.lower (PyString.strip line) <> REGION c ->
           run_all W c initial_state
           = (Raise (ValueError
                       (msg_bucket_region (PyString.lower (PyString.strip line))
                          (REGION c))),
              mk_state (preamble c
                        ++ [(Shell (gsutil_ls_location (bucket_name_of u)), Returned)])%list
                       1))
     /\ (forall ev, In ev (log (snd (run_all W c initial_state))) ->
           is_bucket_creation (fst ev) = false))
  /\ (bucket_unset (BUCKET_URI c) = true <->
      BUCKET_URI c = None
      \/ exists u, BUCKET_URI c = Some u /\ (PyString.strip u = "" \/ u = "gs://"))
  /\ (bucket_unset (BUCKET_URI c) = true ->
      In (Shell (gsutil_mb (REGION c)
                   ("gs://" ++ PROJECT_ID c ++ "-tmp-" ++ YYYYMMDDHHMMSS (now W 0))),
          Returned)
         (log (snd (run_all W c initial_state))))
  /\ (forall d d',
        valid_datetime d -> valid_datetime d' ->
        "gs://" ++ PROJECT_ID c ++ "-tmp-" ++ YYYYMMDDHHMMSS d
          = "gs://" ++ PROJECT_ID c ++ "-tmp-" ++ YYYYMMDDHHMMSS d' ->
        d = d').
Proof.
  split; [|split; [|split]].
  - intros u HB Hblank Hgs.
    pose proof (bucket_set u Hblank Hgs) as HU.
    split; [|split].
    + intros HP. apply run_all_stops_in_bucket_cell.
      now apply choose_bucket_bad_prefix with (u := u).
    + intros HP line rest HO HR. apply run_all_stops_in_bucket_cell.
      now apply choose_bucket_bad_region with (rest := rest).
    + rewrite <- HB in HU.
      assert (L : logs (fun ev => is_bucket_creation (fst ev) = false)
                       (fun _ => True) (run_all W c)).
      { unfold_cells. logs_walk ltac:(congruence). all: try reflexivity. }
      apply Forall_forall. apply (logs_all _ _ _ _ L). constructor.
  - apply bucket_unset_cases.
  - intros HU. unfold run_all.
    erewrite bind_ok by reflexivity.
    erewrite bind_ok by reflexivity.
    unfold cell_bucket. rewrite bind_assoc.
    erewrite bind_ok by (apply choose_bucket_fresh; exact HU).
    apply (logs_keeps (fun _ => True) (fun _ => True)).
    + unfold_cells. logs_walk idtac. all: exact I.
    + cbn [log clock_reads]. apply in_or_app. right. left. reflexivity.
  - intros d d'. apply fresh_bucket_name_inj.
Qed.

Lemma bucket_uri_is_checked_first_witness :
  run_all calm (form (Some "my-bucket") "hf_abc" "gemma-2b" "NVIDIA_L4" "4bit" "" false)
    initial_state
  = (Raise (AssertionError msg_bucket_prefix),
     mk_state (preamble notebook_defaults) 1)
  /\ run_all elsewhere
       (form (Some "gs://my-bucket/runs") "hf_abc" "gemma-2b" "NVIDIA_L4" "4bit" "" false)
       initial_state
     = (Raise (ValueError (msg_bucket_region "us-central1" "europe-west4")),
        mk_state (preamble notebook_defaults
                  ++ [(Shell (gsutil_ls_location "gs://my-bucket"), Returned)])%list 1)
  /\ In (Shell (gsutil_mb "europe-west4" "gs://crafty-progress-421108-tmp-20240305102030"),
         Returned)
        (log (snd (run_all calm notebook_with_token initial_state))).
Proof.
  split; [|split].
  - apply (proj1 (bucket_uri_is_checked_first calm
                    (form (Some "my-bucket") "hf_abc" "gemma-2b" "NVIDIA_L4" "4bit" "" false))
             "my-bucket");
      [reflexivity | vm_compute; discriminate | discriminate | reflexivity].
  - apply (proj1 (bucket_uri_is_checked_first elsewhere
                    (form (Some "gs://my-bucket/runs") "hf_abc" "gemma-2b" "NVIDIA_L4"
                       "4bit" "" false))
             "gs://my-bucket/runs")
      with (line := " US-CENTRAL1") (rest := []);
      [reflexivity | vm_compute; discriminate | discriminate | reflexivity
      | reflexivity | vm_compute; discriminate].
  - apply (proj1 (proj2 (proj2 (bucket_uri_is_checked_first calm notebook_with_token)))).
    reflexivity.
Defined.

(** ** The Hugging Face token *)

Lemma truthy_nonempty (t : string) : t <> "" <-> PyString.truthy t = true.
Proof. destruct t; simpl; split; congruence. Qed.

Lemma cell_init_without_token (W : world) (c : config) (b : bucket_vars) (s : state) :
  HF_TOKEN c = "" ->
  sdk_raises W (log s) (aiplatform_init (PROJECT_ID c) (REGION c) (STAGING_BUCKET b)) = false ->
  cell_init W c b s
  = (Raise (AssertionError msg_hf_token),
     mk_state (log s ++ [(aiplatform_init (PROJECT_ID c) (REGION c) (STAGING_BUCKET b),
                          Returned)])%list
              (clock_reads s)).
Proof.
  intros HT HI. unfold cell_init. cbv zeta.
  erewrite bind_ok by (apply sdk_returns; exact HI).
  rewrite HT. reflexivity.
Qed.

Lemma cell_init_with_token (W : world) (c : config) (b : bucket_vars) (s : state) :
  HF_TOKEN c <> "" ->
  sdk_raises W (log s) (aiplatform_init (PROJECT_ID c) (REGION c) (STAGING_BUCKET b)) = false ->
  fst (cell_init W c b s) = Ok (mk_init_vars [] []).
Proof.
  intros HT HI. unfold cell_init. cbv zeta. apply truthy_nonempty in HT.
  erewrite bind_ok by (apply sdk_returns; exact HI).
  rewrite HT. reflexivity.
Qed.

(** C10.  With an empty HF_TOKEN the initialisation cell raises its
    AssertionError (once [aiplatform.init] has returned), it never returns,
    and the log of the run holds no training call and no deployment call.
    With a token that is not empty the assertion passes, and in every run
    each [train_job.run] has the argument --huggingface_access_token=<token>
    and each [Model.upload] has HF_TOKEN=<token> in the container's
    environment. *)
Theorem hf_token_required_and_forwarded (W : world) (c : config) :
  (HF_TOKEN c = "" ->
     (forall b s,
        sdk_raises W (log s)
          (aiplatform_init (PROJECT_ID c) (REGION c) (STAGING_BUCKET b)) = false ->
        cell_init W c b s
        = (Raise (AssertionError msg_hf_token),
           mk_state (log s ++ [(aiplatform_init (PROJECT_ID c) (REGION c) (STAGING_BUCKET b),
                                Returned)])%list
                    (clock_reads s)))
     /\ (forall b s g, fst (cell_init W c b s) <> Ok g)
     /\ (forall ev, In ev (log (snd (run_all W c initial_state))) ->
           is_training_call (fst ev) = false /\ is_deployment_call (fst ev) = false))
  /\
  (HF_TOKEN c <> "" ->
     (forall b s,
        sdk_raises W (log s)
          (aiplatform_init (PROJECT_ID c) (REGION c) (STAGING_BUCKET b)) = false ->
        fst (cell_init W c b s) = Ok (mk_init_vars [] []))
     /\ (forall ev, In ev (log (snd (run_all W c initial_state))) ->
           forwards_token (HF_TOKEN c) (fst ev))).
Proof.
  split; intros HT.
  - assert (Hfalse : PyString.truthy (HF_TOKEN c) = true -> False)
      by (rewrite HT; discriminate).
    split; [|split].
    + intros b s. now apply cell_init_without_token.
    + intros b s g. apply logs_never_returns with (P := fun _ => True).
      unfold cell_init. logs_walk ltac:(exfalso; auto). all: exact I.
    + assert (L : logs (fun ev => is_training_call (fst ev) = false
                                  /\ is_deployment_call (fst ev) = false)
                       (fun _ => True) (run_all W c)).
      { unfold_cells. logs_walk ltac:(exfalso; auto).
        all: split; reflexivity. }
      apply Forall_forall. apply (logs_all _ _ _ _ L). constructor.
  - split.
    + intros b s. now apply cell_init_with_token.
    + assert (L : logs (fun ev => forwards_token (HF_TOKEN c) (fst ev))
                       (fun _ => True) (run_all W c)).
      { apply truthy_nonempty in HT.
        unfold_cells. logs_walk idtac.
        all: try exact I.
        all: cbn [fst forwards_token args train_args
                  serving_container_environment_variables];
          first [ do 15 right; left; reflexivity | rewrite HT; reflexivity ]. }
      apply Forall_forall. apply (logs_all _ _ _ _ L). constructor.
Qed.

Lemma hf_token_required_and_forwarded_witness :
  cell_init calm notebook_defaults sample_bucket_vars initial_state
  = (Raise (AssertionError msg_hf_token),
     mk_state [(aiplatform_init "crafty-progress-421108" "europe-west4"
                  "gs://crafty-progress-421108-tmp-20240305102030/temporal",
                Returned)] 0)
  /\ Forall (fun ev => forwards_token "hf_abc" (fst ev))
            (log (snd (run_all calm notebook_with_token initial_state)))
  /\ existsb (fun ev => is_training_run (fst ev))
             (log (snd (run_all calm notebook_with_token initial_state))) = true
  /\ existsb (fun ev => is_model_upload (fst ev))
             (log (snd (run_all calm notebook_with_token initial_state))) = true.
Proof.
  split; [|split; [|split]].
  - apply (proj1 (hf_token_required_and_forwarded calm notebook_defaults) eq_refl).
    reflexivity.
  - apply Forall_forall.
    apply (proj2 (hf_token_required_and_forwarded calm notebook_with_token)).
    simpl. discriminate.
  - reflexivity.
  - reflexivity.
Defined.

(** ** The clean-up cell *)

(** In no run, on no platform, does the notebook ask for an endpoint or a
    model to be deleted: the two loops of the clean-up cell run over
    dictionaries that are still empty. *)
Lemma run_never_deletes_endpoint_or_model (W : world) (c : config) (ev : event) :
  In ev (log (snd (run_all W c initial_state))) ->
  is_endpoint_delete (fst ev) = false /\ is_model_delete (fst ev) = false.
Proof.
  revert ev. apply Forall_forall.
  assert (L : logs (fun ev => is_endpoint_delete (fst ev) = false
                               /\ is_model_delete (fst ev) = false)
                   (fun _ => True) (run_all W c)).
  { unfold_cells.
    logs_walk ltac:(idtac;
                    match goal with H : In _ _ |- _ => simpl in H; contradiction end).
    all: split; reflexivity. }
  apply (logs_all _ _ _ _ L). constructor.
Qed.

(** C3, on the code.  A run of the notebook with a token, on a platform
    where every call returns: it ends normally and deletes the training
    job, yet it issues no call that deletes an endpoint or a model, and the
    endpoint and the model that [deploy_model_vllm] made are among the
    resources left behind (with the bucket, which [delete_bucket] guards). *)
Theorem cleanup_leaves_endpoint_and_model :
  let final := run_all calm notebook_with_token initial_state in
  fst final = Ok tt
  /\ In (TrainingJob_delete
           (mk_training_job 6 "gemma-lora-train_20240305_102031" TRAIN_DOCKER_URI),
         Returned)
        (log (snd final))
  /\ forallb (fun ev => negb (is_endpoint_delete (fst ev))
                        && negb (is_model_delete (fst ev)))
             (log (snd final)) = true
  /\ live (log (snd final))
     = [ BucketResource "gs://crafty-progress-421108-tmp-20240305102030";
         EndpointResource
           (CreatedEndpoint 8 "gemma-vllm-serve_20240305_102034-endpoint");
         ModelResource (mk_model 9 "gemma-vllm-serve_20240305_102034") ].
Proof.
  cbv zeta. split; [|split; [|split]].
  - vm_compute. reflexivity.
  - vm_compute. do 12 right. left. reflexivity.
  - vm_compute. reflexivity.
  - vm_compute. reflexivity.
Qed.

(** * Further properties of the notebook *)

(** ** Validation, seen whole *)

(** What a passed validation tells, for use below. *)
Lemma validate_ok_cases (model_id accelerator precision_mode : string)
    (machine_type : option string) :
  validate model_id accelerator precision_mode = Ok machine_type <->
  In accelerator allowed_accelerators
  /\ machine_type = select_machine_type accelerator
  /\ (PyString.contains "7b" model_id = true ->
        accelerator <> "NVIDIA_TESLA_V100"
        /\ (accelerator = "NVIDIA_L4" -> precision_mode = "4bit")).
Proof.
  unfold validate, select_machine_type, check, and_then, allowed_accelerators.
  destruct (PyString.contains "7b" model_id);
    destruct (String.eqb_spec accelerator "NVIDIA_TESLA_V100") as [Ev|Ev];
    destruct (String.eqb_spec accelerator "NVIDIA_L4") as [El|El];
    destruct (String.eqb_spec accelerator "NVIDIA_TESLA_A100") as [Ea|Ea];
    destruct (String.eqb_spec precision_mode "4bit") as [Ep|Ep];
    cbn [negb PyString.truthy_opt PyString.truthy In];
    (split;
     [ intros H; try discriminate H; inversion H; subst;
       repeat split; auto; try discriminate; try congruence;
       intros; congruence
     | intros (Hin & Hmt & H7); subst; try reflexivity;
       try (destruct Hin as [Hin|[Hin|[Hin|[]]]]; congruence);
       try (destruct (H7 eq_refl) as [Hv Hl]; exfalso;
            first [ apply Hv; reflexivity | apply Ep, Hl; reflexivity ]) ]).
Qed.

(** X1.  The validation of the Finetune cell passes exactly when the
    accelerator is one of the three of the form and, for a model whose
    identifier contains "7b", it is not the V100 and, if it is the L4, the
    precision mode is "4bit"; the machine type is then the one of the
    table.  The precision mode is looked at in no other case. *)
Theorem validate_passes_iff (model_id accelerator precision_mode : string)
    (machine_type : option string) :
  validate model_id accelerator precision_mode = Ok machine_type <->
  In accelerator allowed_accelerators
  /\ machine_type = select_machine_type accelerator
  /\ (PyString.contains "7b" model_id = true ->
        accelerator <> "NVIDIA_TESLA_V100"
        /\ (accelerator = "NVIDIA_L4" -> precision_mode = "4bit")).
Proof.
  unfold validate, select_machine_type, check, and_then, allowed_accelerators.
  destruct (PyString.contains "7b" model_id);
    destruct (String.eqb_spec accelerator "NVIDIA_TESLA_V100") as [Ev|Ev];
    destruct (String.eqb_spec accelerator "NVIDIA_L4") as [El|El];
    destruct (String.eqb_spec accelerator "NVIDIA_TESLA_A100") as [Ea|Ea];
    destruct (String.eqb_spec precision_mode "4bit") as [Ep|Ep];
    cbn [negb PyString.truthy_opt PyString.truthy In];
    (split;
     [ intros H; try discriminate H; inversion H; subst;
       repeat split; auto; try discriminate; try congruence;
       intros; congruence
     | intros (Hin & Hmt & H7); subst; try reflexivity;
       try (destruct Hin as [Hin|[Hin|[Hin|[]]]]; congruence);
       try (destruct (H7 eq_refl) as [Hv Hl]; exfalso;
            first [ apply Hv; reflexivity | apply Ep, Hl; reflexivity ]) ]).
Qed.

Lemma allowed_machine_type_truthy (accelerator : string) :
  In accelerator allowed_accelerators ->
  PyString.truthy_opt (select_machine_type accelerator) = true.
Proof. intros [<-|[<-|[<-|[]]]]; reflexivity. Qed.

(** X2.  Whatever the platform does and wherever the run stops, a training
    job is only ever submitted with one of the three accelerators, the
    machine type of the table for it, one replica and one GPU, and, for a
    "7b" model, never on the V100 and on the L4 only in "4bit". *)
Theorem every_submission_is_compatible (W : world) (c : config) (ev : event) :
  In ev (log (snd (run_all W c initial_state))) ->
  compatible_submission c (fst ev).
Proof.
  revert ev. apply Forall_forall.
  assert (L : logs (fun ev => compatible_submission c (fst ev))
                   (fun _ => True) (run_all W c)).
  { unfold_cells. logs_walk idtac.
    all: try exact I.
    all: cbn [fst compatible_submission run_accelerator_type run_machine_type
              replica_count run_accelerator_count];
      match goal with
      | H : validate _ _ _ = Ok _ |- _ =>
          apply validate_ok_cases in H; destruct H as (Hin & Hmt & H7)
      end;
      subst; repeat split; auto using allowed_machine_type_truthy;
      apply H7; assumption. }
  apply (logs_all _ _ _ _ L). constructor.
Qed.

Lemma every_submission_is_compatible_witness :
  Forall (fun ev => compatible_submission
                      (form (Some "gs://") "hf_abc" "gemma-7b" "NVIDIA_L4" "4bit" "" false)
                      (fst ev))
         (log (snd (run_all calm
                      (form (Some "gs://") "hf_abc" "gemma-7b" "NVIDIA_L4" "4bit" "" false)
                      initial_state)))
  /\ existsb (fun ev => is_training_run (fst ev))
       (log (snd (run_all calm
                    (form (Some "gs://") "hf_abc" "gemma-7b" "NVIDIA_L4" "4bit" "" false)
                    initial_state))) = true.
Proof.
  split.
  - apply Forall_forall. intros ev Hev.
    exact (every_submission_is_compatible calm _ ev Hev).
  - reflexivity.
Defined.

(** ** Names *)

Lemma string_length_app (a b : string) :
  String.length (a ++ b) = (String.length a + String.length b)%nat.
Proof. induction a; simpl; congruence. Qed.

Lemma string_app_inj_r (a a' b b' : string) :
  String.length b = String.length b' -> a ++ b = a' ++ b' -> a = a' /\ b = b'.
Proof.
  intros Hl H. apply string_app_inj; [|exact H].
  apply (f_equal String.length) in H. rewrite !string_length_app in H. lia.
Qed.

Lemma timestamp_underscore_inj (d d' : datetime) :
  valid_datetime d -> valid_datetime d' ->
  YYYYMMDD_HHMMSS d = YYYYMMDD_HHMMSS d' -> d = d'.
Proof.
  unfold valid_datetime, YYYYMMDD_HHMMSS.
  destruct d as [y m dd h mi s], d' as [y' m' dd' h' mi' s'];
    cbn [year month day hour minute second].
  intros V V' H.
  assert (P2 : (10 ^ 2 = 100)%nat) by reflexivity.
  apply digits_field_inj in H; [|lia|lia]. destruct H as [-> H].
  apply digits_field_inj in H; [|lia|lia]. destruct H as [-> H].
  apply digits_field_inj in H; [|lia|lia]. destruct H as [-> H].
  apply (string_app_cancel "_") in H.
  apply digits_field_inj in H; [|lia|lia]. destruct H as [-> H].
  apply digits_field_inj in H; [|lia|lia]. destruct H as [-> H].
  rewrite <- (string_app_empty_r (digits 2 s "")) in H.
  rewrite <- (string_app_empty_r (digits 2 s' "")) in H.
  apply digits_field_inj in H; [|lia|lia]. destruct H as [-> _].
  reflexivity.
Qed.

Lemma timestamp_length (d : datetime) : String.length (YYYYMMDD_HHMMSS d) = 15%nat.
Proof. reflexivity. Qed.

(** X3.  A job name tells its prefix and its clock reading: two calls of
    [get_job_name_with_datetime] (at valid readings) return the same name
    only for the same prefix and the same reading, so names repeat exactly
    when the prefix is reused within one second. *)
Theorem job_name_tells_prefix_and_time (W : world) (prefix prefix' : string)
    (s s' : state) :
  valid_datetime (now W (clock_reads s)) ->
  valid_datetime (now W (clock_reads s')) ->
  (fst (get_job_name_with_datetime W prefix s)
   = fst (get_job_name_with_datetime W prefix' s')
   <-> prefix = prefix' /\ now W (clock_reads s) = now W (clock_reads s')).
Proof.
  intros V V'. rewrite !job_name_eq. cbn [fst]. split.
  - intros H. inversion H as [H1].
    apply string_app_inj_r in H1.
    + destruct H1 as [-> H1]. split; [reflexivity|].
      apply (string_app_cancel "_") in H1.
      now apply timestamp_underscore_inj.
    + cbn [String.length append]. now rewrite !timestamp_length.
  - intros [-> ->]. reflexivity.
Qed.

Lemma job_name_tells_prefix_and_time_witness :
  fst (get_job_name_with_datetime calm "gemma-lora-train" (mk_state [] 2))
  <> fst (get_job_name_with_datetime calm "gemma-lora-train" (mk_state [] 3)).
Proof.
  intros H.
  apply (job_name_tells_prefix_and_time calm "gemma-lora-train" "gemma-lora-train"
           (mk_state [] 2) (mk_state [] 3)) in H.
  - destruct H as [_ H]. discriminate H.
  - unfold valid_datetime. cbn.
    assert (P4 : (2024 < 10 ^ 4)%nat) by (apply Nat.ltb_lt; vm_compute; reflexivity).
    lia.
  - unfold valid_datetime. cbn.
    assert (P4 : (2024 < 10 ^ 4)%nat) by (apply Nat.ltb_lt; vm_compute; reflexivity).
    lia.
Defined.

(** The Finetune cell, when it returns: what it returns and what it leaves. *)
Lemma cell_finetune_returns (W : world) (c : config) (b : bucket_vars)
    (s s' : state) (f : finetune_vars) :
  cell_finetune W c b s = (Ok f, s') ->
  let t := clock_reads s in
  let name := "gemma-lora-train" ++ "_" ++ YYYYMMDD_HHMMSS (now W t) in
  let adapter := "gemma-lora-adapter" ++ "_" ++ YYYYMMDD_HHMMSS (now W (1 + t)) in
  let merged := "gemma-merged-model" ++ "_" ++ YYYYMMDD_HHMMSS (now W (2 + t)) in
  let job := mk_training_job (List.length (log s)) name TRAIN_DOCKER_URI in
  let base := PyString.os_path_join "google/" (MODEL_ID c) in
  let out := PyString.os_path_join (STAGING_BUCKET b) adapter in
  let mout := PyString.os_path_join (STAGING_BUCKET b) merged in
  exists mt,
    validate (MODEL_ID c) (ACCELERATOR_TYPE c) (finetuning_precision_mode c) = Ok mt
    /\ f = mk_finetune_vars base mt name job adapter out merged mout
    /\ s' = mk_state
              (log s
               ++ [ (CustomContainerTrainingJob name TRAIN_DOCKER_URI, Returned);
                    (TrainingJob_run job
                       (mk_run_request (train_args c base out mout "")
                          [("WANDB_DISABLED", VBool true)] 1 mt (ACCELERATOR_TYPE c) 1 500
                          (SERVICE_ACCOUNT b)),
                     Returned) ])%list
              (3 + t).
Proof.
  intros H. cbv zeta. unfold cell_finetune in H. cbv zeta in H.
  destruct (validate (MODEL_ID c) (ACCELERATOR_TYPE c) (finetuning_precision_mode c))
    as [mt|e0].
  2:{ erewrite bind_raise in H by reflexivity. discriminate H. }
  exists mt. split; [reflexivity|].
  erewrite bind_ok in H by reflexivity.
  erewrite bind_ok in H by apply job_name_eq.
  cbv beta in H.
  match type of H with
  | bind (sdk W ?k) _ ?st = _ => destruct (sdk_raises W (log st) k) eqn:E1
  end.
  { erewrite bind_raise in H by (apply sdk_fails; exact E1). discriminate H. }
  erewrite bind_ok in H by (apply sdk_returns; exact E1).
  erewrite bind_ok in H by apply job_name_eq.
  erewrite bind_ok in H by apply job_name_eq.
  cbv beta in H.
  match type of H with
  | bind (sdk W ?k) _ ?st = _ => destruct (sdk_raises W (log st) k) eqn:E2
  end.
  { erewrite bind_raise in H by (apply sdk_fails; exact E2). discriminate H. }
  erewrite bind_ok in H by (apply sdk_returns; exact E2).
  unfold ret in H. inversion H; subst; clear H.
  cbn [log clock_reads plus]. rewrite <- app_assoc. split; reflexivity.
Qed.

Lemma os_path_join_relative_inj (a x y : string) :
  PyString.startswith x "/" = false -> PyString.startswith y "/" = false ->
  PyString.os_path_join a x = PyString.os_path_join a y -> x = y.
Proof.
  intros Hx Hy. unfold PyString.os_path_join. rewrite Hx, Hy.
  destruct (negb (PyString.truthy a) || PyString.endswith_char a "/"); intros H.
  - now apply string_app_cancel in H.
  - now apply string_app_cancel, string_app_cancel in H.
Qed.

(** X4.  In a Finetune cell that returns, the directory of the LoRA adapter
    and the directory of the merged model are different directories,
    whatever the staging bucket and whatever the clock shows (even the same
    second three times), and both lie under the staging bucket's text. *)
Theorem adapter_and_merged_dirs_differ (W : world) (c : config) (b : bucket_vars)
    (s s' : state) (f : finetune_vars) :
  cell_finetune W c b s = (Ok f, s') ->
  lora_output_dir f <> merged_model_output_dir f
  /\ lora_adapter_dir f <> job_name f
  /\ merged_model_dir f <> job_name f
  /\ PyString.startswith (lora_output_dir f) (STAGING_BUCKET b) = true
  /\ PyString.startswith (merged_model_output_dir f) (STAGING_BUCKET b) = true.
Proof.
  intros H. apply cell_finetune_returns in H. cbv zeta in H.
  destruct H as (mt & _ & -> & _).
  cbn [lora_output_dir merged_model_output_dir lora_adapter_dir merged_model_dir job_name].
  split; [|split; [|split; [|split]]].
  - intros E. apply os_path_join_relative_inj in E; [discriminate E | reflexivity | reflexivity].
  - discriminate.
  - discriminate.
  - unfold PyString.os_path_join, PyString.startswith.
    cbn [prefix append]. 
    destruct (negb (PyString.truthy (STAGING_BUCKET b))
              || PyString.endswith_char (STAGING_BUCKET b) "/");
      apply prefix_app; eexists; reflexivity.
  - unfold PyString.os_path_join, PyString.startswith.
    cbn [prefix append].
    destruct (negb (PyString.truthy (STAGING_BUCKET b))
              || PyString.endswith_char (STAGING_BUCKET b) "/");
      apply prefix_app; eexists; reflexivity.
Qed.

Lemma adapter_and_merged_dirs_differ_witness :
  exists f s',
    cell_finetune calm notebook_defaults sample_bucket_vars (mk_state [] 1) = (Ok f, s')
    /\ lora_output_dir f <> merged_model_output_dir f.
Proof.
  destruct (cell_finetune calm notebook_defaults sample_bucket_vars (mk_state [] 1))
    as [[f|e] s'] eqn:E.
  - exists f, s'. split; [reflexivity|].
    exact (proj1 (adapter_and_merged_dirs_differ calm _ _ _ _ _ E)).
  - vm_compute in E. discriminate E.
Defined.

(** ** [deploy_model_vllm], case by case *)

(** The four ways a call of [deploy_model_vllm] can go, with the upload
    request it builds. *)
Lemma deploy_model_vllm_cases
    (W : world) (hf_token : option string)
    (model_name model_id service_account : string) (base_model_id : option string)
    (machine_type accelerator_type : string) (accelerator_count : Z)
    (gpu_memory_utilization : pyfloat) (max_model_len : Z) (dtype : string)
    (s : state) :
  let deploy :=
    deploy_model_vllm W hf_token model_name model_id service_account base_model_id
      machine_type accelerator_type accelerator_count gpu_memory_utilization
      max_model_len dtype in
  let create := Endpoint_create (model_name ++ "-endpoint") in
  let ep := CreatedEndpoint (List.length (log s)) (model_name ++ "-endpoint") in
  let m := mk_model (List.length (log s) + 1) model_name in
  let d := mk_deploy_request ep machine_type accelerator_type accelerator_count 1800
             service_account in
  let st := fun l => mk_state (log s ++ l)%list (clock_reads s) in
  exists u,
    (display_name u = model_name
     /\ serving_container_image_uri u = VLLM_DOCKER_URI
     /\ dict_keys (serving_container_environment_variables u)
        = ("MODEL_ID" :: "DEPLOY_SOURCE"
           :: match forwarded_token hf_token with Some _ => ["HF_TOKEN"] | None => [] end)
     /\ dict_get (serving_container_environment_variables u) "MODEL_ID"
        = Some (effective_base_model base_model_id model_id)
     /\ dict_get (serving_container_environment_variables u) "DEPLOY_SOURCE"
        = Some "notebook"
     /\ dict_get (serving_container_environment_variables u) "HF_TOKEN"
        = forwarded_token hf_token
     /\ In ("--model=" ++ model_id) (serving_container_args u)
     /\ In ("--tensor-parallel-size=" ++ PyString.of_int accelerator_count)
           (serving_container_args u)
     /\ In ("--max-model-len=" ++ PyString.of_int max_model_len)
           (serving_container_args u))
    /\ (deploy s = (Raise (SdkError create), st [(create, Raised)])
        \/ deploy s = (Raise (SdkError (Model_upload u)),
                       st [(create, Returned); (Model_upload u, Raised)])
        \/ deploy s = (Raise (SdkError (Model_deploy m d)),
                       st [(create, Returned); (Model_upload u, Returned);
                           (Model_deploy m d, Raised)])
        \/ deploy s = (Ok (m, ep),
                       st [(create, Returned); (Model_upload u, Returned);
                           (Model_deploy m d, Returned)])).
Proof.
  cbv zeta. unfold deploy_model_vllm. cbv zeta.
  match goal with |- context [Model_upload ?x] => exists x end.
  split.
  - cbn [display_name serving_container_image_uri
         serving_container_environment_variables serving_container_args].
    split; [reflexivity|]. split; [reflexivity|].
    split; [|split; [|split; [|split; [|split; [|split]]]]].
    + destruct hf_token as [[|ch t]|]; reflexivity.
    + destruct hf_token as [[|ch t]|]; destruct base_model_id as [[|cb bb]|]; reflexivity.
    + destruct hf_token as [[|ch t]|]; reflexivity.
    + destruct hf_token as [[|ch t]|]; reflexivity.
    + simpl. auto.
    + simpl. auto.
    + simpl. auto 10.
  - destruct (sdk_raises W (log s) (Endpoint_create (model_name ++ "-endpoint"))) eqn:E0.
    { left. erewrite bind_raise by (apply sdk_fails; exact E0). reflexivity. }
    right.
    erewrite bind_ok by (apply sdk_returns; exact E0). cbv beta.
    match goal with
    | |- context [bind (sdk W ?k) _ ?st] => destruct (sdk_raises W (log st) k) eqn:E1
    end.
    { left. erewrite bind_raise by (apply sdk_fails; exact E1).
      cbn [log clock_reads]. rewrite <- app_assoc. reflexivity. }
    right.
    erewrite bind_ok by (apply sdk_returns; exact E1). cbv beta.
    cbn [log clock_reads]. rewrite length_app. cbn [List.length].
    match goal with
    | |- context [bind (sdk W ?k) _ ?st] => destruct (sdk_raises W (log st) k) eqn:E2
    end.
    { left. erewrite bind_raise by (apply sdk_fails; exact E2).
      cbn [log clock_reads]. rewrite <- !app_assoc. reflexivity. }
    right.
    erewrite bind_ok by (apply sdk_returns; exact E2).
    cbn [ret log clock_reads]. rewrite <- !app_assoc. reflexivity.
Qed.

(** X5.  When [deploy_model_vllm] returns, it has made exactly three calls,
    all of which returned: the endpoint "<model_name>-endpoint", the upload
    of the model under [model_name] with "--model=<model_id>", and the
    deployment of that model to that endpoint with the machine, accelerator
    and service account it was given; the pair it returns is that model and
    that endpoint, and both are live afterwards. *)
Theorem deploy_returns_what_it_deployed
    (W : world) (hf_token : option string)
    (model_name model_id service_account : string) (base_model_id : option string)
    (machine_type accelerator_type : string) (accelerator_count : Z)
    (gpu_memory_utilization : pyfloat) (max_model_len : Z) (dtype : string)
    (s s' : state) (m : model) (e : endpoint) :
  let deploy :=
    deploy_model_vllm W hf_token model_name model_id service_account base_model_id
      machine_type accelerator_type accelerator_count gpu_memory_utilization
      max_model_len dtype in
  deploy s = (Ok (m, e), s') ->
  e = CreatedEndpoint (List.length (log s)) (model_name ++ "-endpoint")
  /\ m = mk_model (List.length (log s) + 1) model_name
  /\ (exists u,
        emitted deploy s
        = [ (Endpoint_create (model_name ++ "-endpoint"), Returned);
            (Model_upload u, Returned);
            (Model_deploy m
               (mk_deploy_request e machine_type accelerator_type accelerator_count
                  1800 service_account),
             Returned) ]
        /\ display_name u = model_name
        /\ In ("--model=" ++ model_id) (serving_container_args u))
  /\ In (EndpointResource e) (live (log s'))
  /\ In (ModelResource m) (live (log s')).
Proof.
  intros deploy H. subst deploy. unfold emitted.
  destruct (deploy_model_vllm_cases W hf_token model_name model_id service_account
              base_model_id machine_type accelerator_type accelerator_count
              gpu_memory_utilization max_model_len dtype s)
    as (u & (Hname & _ & _ & _ & _ & _ & Hmodel & _) & Hcases).
  cbv zeta in Hcases.
  destruct Hcases as [Hc|[Hc|[Hc|Hc]]]; rewrite Hc in H |- *;
    try discriminate H.
  inversion H; subst; clear H. cbn [snd log].
  split; [reflexivity|]. split; [reflexivity|]. split; [|split].
  - exists u. rewrite skipn_length_app. auto.
  - rewrite live_app. cbn [live_from created_by deleted_by].
    rewrite !without_nil, !in_app_iff. simpl. auto 10.
  - rewrite live_app. cbn [live_from created_by deleted_by].
    rewrite !without_nil, !in_app_iff, Nat.add_1_r. simpl. auto 10.
Qed.

Lemma deploy_returns_what_it_deployed_witness :
  exists m e s',
    deploy_model_vllm calm (Some "hf_abc") "gemma-vllm-serve_20240305_102034"
      "gs://b/temporal/gemma-merged-model_20240305_102033"
      "123456789012-compute@developer.gserviceaccount.com" None
      "g2-standard-12" "NVIDIA_L4" 1 "0.9" 2048 "auto" initial_state
    = (Ok (m, e), s')
    /\ e = CreatedEndpoint 0 "gemma-vllm-serve_20240305_102034-endpoint"
    /\ In (ModelResource m) (live (log s')).
Proof.
  destruct (deploy_model_vllm calm (Some "hf_abc") "gemma-vllm-serve_20240305_102034"
              "gs://b/temporal/gemma-merged-model_20240305_102033"
              "123456789012-compute@developer.gserviceaccount.com" None
              "g2-standard-12" "NVIDIA_L4" 1 "0.9" 2048 "auto" initial_state)
    as [[[m e]|x] s'] eqn:E.
  - exists m, e, s'. split; [reflexivity|].
    destruct (deploy_returns_what_it_deployed calm _ _ _ _ _ _ _ _ _ _ _ _ _ _ _ E)
      as (He & _ & _ & _ & Hm).
    split; [exact He | exact Hm].
  - vm_compute in E. discriminate E.
Defined.

(** X6.  What a failed [deploy_model_vllm] leaves behind.  It raises the
    error of the first of its three calls that raises, and calls nothing
    after it: when [Endpoint.create] raises nothing has been made; when
    [Model.upload] raises the endpoint is left; when [model.deploy] raises
    the endpoint and the uploaded model are both left, undeployed. *)
Theorem deploy_failures_and_leftovers
    (W : world) (hf_token : option string)
    (model_name model_id service_account : string) (base_model_id : option string)
    (machine_type accelerator_type : string) (accelerator_count : Z)
    (gpu_memory_utilization : pyfloat) (max_model_len : Z) (dtype : string)
    (s s' : state) (e : exn) :
  let deploy :=
    deploy_model_vllm W hf_token model_name model_id service_account base_model_id
      machine_type accelerator_type accelerator_count gpu_memory_utilization
      max_model_len dtype in
  let create := Endpoint_create (model_name ++ "-endpoint") in
  let ep := CreatedEndpoint (List.length (log s)) (model_name ++ "-endpoint") in
  let m := mk_model (List.length (log s) + 1) model_name in
  deploy s = (Raise e, s') ->
  (e = SdkError create
   /\ emitted deploy s = [(create, Raised)]
   /\ live (log s') = live (log s))
  \/ (exists u,
        e = SdkError (Model_upload u)
        /\ emitted deploy s = [(create, Returned); (Model_upload u, Raised)]
        /\ live (log s') = (live (log s) ++ [EndpointResource ep])%list)
  \/ (exists u d,
        e = SdkError (Model_deploy m d)
        /\ emitted deploy s
           = [(create, Returned); (Model_upload u, Returned); (Model_deploy m d, Raised)]
        /\ dr_endpoint d = ep
        /\ live (log s')
           = (live (log s) ++ [EndpointResource ep; ModelResource m])%list).
Proof.
  intros deploy create ep m H. subst deploy create ep m. unfold emitted.
  destruct (deploy_model_vllm_cases W hf_token model_name model_id service_account
              base_model_id machine_type accelerator_type accelerator_count
              gpu_memory_utilization max_model_len dtype s)
    as (u & (Hname & _) & Hcases).
  cbv zeta in Hcases.
  destruct Hcases as [Hc|[Hc|[Hc|Hc]]]; rewrite Hc in H |- *;
    try discriminate H;
    injection H as <- <-; cbn [snd log]; rewrite skipn_length_app, live_app;
    cbn [live_from created_by deleted_by]; rewrite ?without_nil, ?app_nil_r.
  - left. auto.
  - right. left. exists u. auto.
  - right. right. eexists u, _. split; [reflexivity|]. split; [reflexivity|].
    split; [reflexivity|].
    rewrite Hname, Nat.add_1_r, <- app_assoc. reflexivity.
Qed.

Lemma deploy_failures_and_leftovers_witness :
  let no_deployment :=
    mk_world sample_clock sample_shell
      (fun _ k => match k with Model_deploy _ _ => true | _ => false end) in
  exists e s',
    deploy_model_vllm no_deployment (Some "hf_abc") "serve" "gs://b/m" "sa" None
      "g2-standard-12" "NVIDIA_L4" 1 "0.9" 2048 "auto" initial_state
    = (Raise e, s')
    /\ live (log s')
       = [ EndpointResource (CreatedEndpoint 0 "serve-endpoint");
           ModelResource (mk_model 1 "serve") ].
Proof.
  intros no_deployment.
  destruct (deploy_model_vllm no_deployment (Some "hf_abc") "serve" "gs://b/m" "sa" None
              "g2-standard-12" "NVIDIA_L4" 1 "0.9" 2048 "auto" initial_state)
    as [[v|e] s'] eqn:E.
  - vm_compute in E. discriminate E.
  - exists e, s'. split; [reflexivity|].
    destruct (deploy_failures_and_leftovers no_deployment (Some "hf_abc") "serve"
                "gs://b/m" "sa" None "g2-standard-12" "NVIDIA_L4" 1 "0.9" 2048 "auto"
                initial_state s' e E)
      as [(He & _)|[(u & He & _)|(u & d & _ & _ & _ & Hl)]].
    + vm_compute in E. rewrite He in E. discriminate E.
    + vm_compute in E. rewrite He in E. discriminate E.
    + exact Hl.
Defined.

(** X7.  The environment of the serving container, in every upload that
    [deploy_model_vllm] asks for: MODEL_ID is the base model, or the model
    itself when no base model (or an empty one) is given; DEPLOY_SOURCE is
    "notebook"; HF_TOKEN is there exactly when the global is defined and
    not empty, and there are no other variables. *)
Theorem serving_environment
    (W : world) (hf_token : option string)
    (model_name model_id service_account : string) (base_model_id : option string)
    (machine_type accelerator_type : string) (accelerator_count : Z)
    (gpu_memory_utilization : pyfloat) (max_model_len : Z) (dtype : string)
    (s : state) (u : upload_request) (o : outcome) :
  In (Model_upload u, o)
     (emitted
        (deploy_model_vllm W hf_token model_name model_id service_account base_model_id
           machine_type accelerator_type accelerator_count gpu_memory_utilization
           max_model_len dtype) s) ->
  let env := serving_container_environment_variables u in
  dict_get env "MODEL_ID" = Some (effective_base_model base_model_id model_id)
  /\ dict_get env "DEPLOY_SOURCE" = Some "notebook"
  /\ dict_get env "HF_TOKEN" = forwarded_token hf_token
  /\ dict_keys env
     = ("MODEL_ID" :: "DEPLOY_SOURCE"
        :: match forwarded_token hf_token with Some _ => ["HF_TOKEN"] | None => [] end).
Proof.
  unfold emitted.
  destruct (deploy_model_vllm_cases W hf_token model_name model_id service_account
              base_model_id machine_type accelerator_type accelerator_count
              gpu_memory_utilization max_model_len dtype s)
    as (u0 & (_ & _ & Hkeys & Hmodel & Hsrc & Htok & _) & Hcases).
  cbv zeta in Hcases.
  destruct Hcases as [Hc|[Hc|[Hc|Hc]]]; rewrite Hc; cbn [snd log];
    rewrite skipn_length_app; intros Hin; simpl in Hin;
    repeat (destruct Hin as [Hin|Hin]; [try discriminate Hin|]); try contradiction;
    inversion Hin; subst; cbv zeta; auto.
Qed.

Lemma serving_environment_witness :
  dict_keys
    (serving_container_environment_variables
       (mk_upload_request "serve" VLLM_DOCKER_URI
          ["python"; "-m"; "vllm.entrypoints.api_server"]
          ["--host=0.0.0.0"; "--port=7080"; "--model=gs://b/m";
           "--tensor-parallel-size=1"; "--swap-space=16";
           "--gpu-memory-utilization=0.9"; "--max-model-len=2048"; "--dtype=auto";
           "--disable-log-stats"]
          [7080%Z] "/generate" "/ping"
          [("MODEL_ID", "gs://b/m"); ("DEPLOY_SOURCE", "notebook")]
          (16 * 1024)%Z 7200%Z))
  = ["MODEL_ID"; "DEPLOY_SOURCE"].
Proof.
  apply (serving_environment calm (Some "") "serve" "gs://b/m" "sa" (Some "")
           "g2-standard-12" "NVIDIA_L4" 1 "0.9" 2048 "auto" initial_state _ Returned).
  vm_compute. right. left. reflexivity.
Defined.

(** ** The bucket cell, further *)

Lemma split_no_sep (sep : ascii) (s : string) :
  has_char sep s = false -> PyString.split sep s = [s].
Proof.
  induction s as [|c s IH]; simpl; [reflexivity|].
  intros H. apply orb_false_iff in H. destruct H as [Hc Hs].
  rewrite Hc, (IH Hs). reflexivity.
Qed.

Lemma split_app_sep (sep : ascii) (a b : string) :
  has_char sep a = false ->
  PyString.split sep (a ++ String sep b) = a :: PyString.split sep b.
Proof.
  induction a as [|c a IH]; simpl.
  - intros _. now rewrite Ascii.eqb_refl.
  - intros H. apply orb_false_iff in H. destruct H as [Hc Ha].
    rewrite Hc, (IH Ha). reflexivity.
Qed.

Lemma split_never_empty (sep : ascii) (s : string) : PyString.split sep s <> [].
Proof.
  induction s as [|c s IH]; simpl; [discriminate|].
  destruct (Ascii.eqb c sep); [discriminate|].
  destruct (PyString.split sep s); discriminate.
Qed.

(** X8.  [BUCKET_NAME] is the bucket of the URI without the path inside
    it: for a bucket name without "/", both "gs://<bucket>" and
    "gs://<bucket>/<any path>" give "gs://<bucket>". *)
Theorem bucket_name_drops_the_path (bucket path : string) :
  has_char "/" bucket = false ->
  bucket_name_of ("gs://" ++ bucket) = "gs://" ++ bucket
  /\ bucket_name_of ("gs://" ++ bucket ++ "/" ++ path) = "gs://" ++ bucket.
Proof.
  intros H. unfold bucket_name_of. split.
  - change ("gs://" ++ bucket) with ("gs:" ++ String "/" (String "/" bucket)).
    rewrite split_app_sep by reflexivity.
    change (String "/" bucket) with ("" ++ String "/" bucket).
    rewrite split_app_sep by reflexivity.
    rewrite split_no_sep by exact H. reflexivity.
  - change ("gs://" ++ bucket ++ "/" ++ path)
      with ("gs:" ++ String "/" (String "/" (bucket ++ String "/" path))).
    rewrite split_app_sep by reflexivity.
    change (String "/" (bucket ++ String "/" path))
      with ("" ++ String "/" (bucket ++ String "/" path)).
    rewrite split_app_sep by reflexivity.
    rewrite split_app_sep by exact H.
    cbn [firstn PyString.join append]. reflexivity.
Qed.

Lemma bucket_name_drops_the_path_witness :
  bucket_name_of ("gs://" ++ "my-bucket" ++ "/" ++ "runs/2024/03") = "gs://" ++ "my-bucket".
Proof.
  apply (bucket_name_drops_the_path "my-bucket" "runs/2024/03"). reflexivity.
Defined.

Lemma lstrip_empty (s : string) : PyString.lstrip s = "" <-> all_space s = true.
Proof.
  induction s as [|c s IH]; simpl; [tauto|].
  destruct (PyString.isspace c); simpl; [exact IH | split; discriminate].
Qed.

Lemma rstrip_empty (s : string) : PyString.rstrip s = "" <-> all_space s = true.
Proof.
  induction s as [|c s IH]; simpl; [tauto|].
  destruct (PyString.rstrip s) eqn:E.
  - destruct (PyString.isspace c); simpl.
    + split; [intros _; now apply IH | reflexivity].
    + split; discriminate.
  - split; [discriminate|]. intros H. apply andb_true_iff in H.
    destruct H as [_ H]. apply IH in H. discriminate H.
Qed.

Lemma lstrip_all_space_or_head (s : string) :
  PyString.lstrip s = ""
  \/ exists c t, PyString.lstrip s = String c t /\ PyString.isspace c = false.
Proof.
  induction s as [|c s IH]; simpl; [auto|].
  destruct (PyString.isspace c) eqn:E; [exact IH|]. right. eauto.
Qed.

Lemma strip_empty (s : string) : PyString.strip s = "" <-> all_space s = true.
Proof.
  unfold PyString.strip. split.
  - intros H. apply rstrip_empty in H.
    destruct (lstrip_all_space_or_head s) as [E|(c & t & E & Hc)].
    + now apply lstrip_empty.
    + rewrite E in H. simpl in H. rewrite Hc in H. discriminate H.
  - intros H. apply lstrip_empty in H. now rewrite H.
Qed.

(** X9.  "Blank" means white space only, white space being what
    [str.isspace] says: a BUCKET_URI made of spaces, tabs, line ends,
    no-break spaces and the like (or of nothing) is treated like no bucket
    at all, and the cell makes a fresh bucket named after the project and
    the time; any other text than that and "gs://" counts as the user's
    bucket. *)
Theorem blank_bucket_uri_gets_fresh_bucket (W : world) (c : config) (u : string)
    (s : state) :
  BUCKET_URI c = Some u ->
  (bucket_unset (BUCKET_URI c) = true <-> all_space u = true \/ u = "gs://")
  /\ (all_space u = true ->
      let uri := "gs://" ++ PROJECT_ID c ++ "-tmp-"
                 ++ YYYYMMDDHHMMSS (now W (clock_reads s)) in
      choose_bucket W c s
      = (Ok uri,
         mk_state (log s ++ [(Shell (gsutil_mb (REGION c) uri), Returned)])%list
                  (S (clock_reads s)))).
Proof.
  intros HB. assert (Hiff : bucket_unset (BUCKET_URI c) = true
                            <-> all_space u = true \/ u = "gs://").
  { rewrite HB. simpl. now rewrite orb_true_iff, !String.eqb_eq, strip_empty. }
  split; [exact Hiff|].
  intros Hs. apply choose_bucket_fresh. apply Hiff. auto.
Qed.

Lemma blank_bucket_uri_gets_fresh_bucket_witness :
  fst (choose_bucket calm
         (form (Some "   ") "hf_abc" "gemma-2b" "NVIDIA_L4" "4bit" "" false)
         initial_state)
  = Ok "gs://crafty-progress-421108-tmp-20240305102030".
Proof.
  rewrite (proj2 (blank_bucket_uri_gets_fresh_bucket calm
                    (form (Some "   ") "hf_abc" "gemma-2b" "NVIDIA_L4" "4bit" "" false)
                    "   " initial_state eq_refl) eq_refl).
  reflexivity.
Defined.

(** A no-break space in the field is white space to [str.strip], so the
    field is blank. *)
Example no_break_space_is_blank :
  bucket_unset (Some no_break_space) = true
  /\ fst (choose_bucket calm
            (form (Some no_break_space) "hf_abc" "gemma-2b" "NVIDIA_L4" "4bit" "" false)
            initial_state)
     = Ok "gs://crafty-progress-421108-tmp-20240305102030".
Proof. split; reflexivity. Qed.

(** X10.  The region of the bucket is lower-cased before the comparison
    and REGION is not: when REGION has a capital letter in it, every bucket
    the user supplies is refused with the ValueError, whatever region
    [gsutil] reports, and the run stops before Vertex AI is initialised. *)
Theorem capital_letters_in_region_refuse_every_bucket
    (W : world) (c : config) (u line : string) (rest : list string) :
  BUCKET_URI c = Some u -> PyString.strip u <> "" -> u <> "gs://" ->
  PyString.startswith u "gs://" = true ->
  shell_output W (gsutil_ls_location (bucket_name_of u)) = line :: rest ->
  PyString.lower (REGION c) <> REGION c ->
  run_all W c initial_state
  = (Raise (ValueError
              (msg_bucket_region (PyString.lower (PyString.strip line)) (REGION c))),
     mk_state (preamble c
               ++ [(Shell (gsutil_ls_location (bucket_name_of u)), Returned)])%list 1).
Proof.
  intros HB Hblank Hgs HP HO HR.
  apply run_all_stops_in_bucket_cell.
  apply choose_bucket_bad_region with (rest := rest); auto using bucket_set.
  intros E. apply HR. rewrite <- E. apply lower_idem.
Qed.

Lemma capital_letters_in_region_refuse_every_bucket_witness :
  fst (run_all
         (mk_world sample_clock (fun _ => ["europe-west4"]) (fun _ _ => false))
         (with_region "Europe-West4"
            (form (Some "gs://my-bucket") "hf_abc" "gemma-2b" "NVIDIA_L4" "4bit" "" false))
         initial_state)
  = Raise (ValueError (msg_bucket_region "europe-west4" "Europe-West4")).
Proof.
  rewrite (capital_letters_in_region_refuse_every_bucket
             (mk_world sample_clock (fun _ => ["europe-west4"]) (fun _ _ => false))
             (with_region "Europe-West4"
                (form (Some "gs://my-bucket") "hf_abc" "gemma-2b" "NVIDIA_L4" "4bit" ""
                   false))
             "gs://my-bucket" "europe-west4" []).
  - reflexivity.
  - reflexivity.
  - vm_compute. discriminate.
  - discriminate.
  - reflexivity.
  - reflexivity.
  - vm_compute. discriminate.
Defined.

Lemma choose_bucket_no_output (W : world) (c : config) (u : string) (s : state) :
  BUCKET_URI c = Some u -> bucket_unset (Some u) = false ->
  PyString.startswith u "gs://" = true ->
  shell_output W (gsutil_ls_location (bucket_name_of u)) = [] ->
  choose_bucket W c s
  = (Raise IndexError,
     mk_state (log s ++ [(Shell (gsutil_ls_location (bucket_name_of u)), Returned)])%list
              (S (clock_reads s))).
Proof.
  intros HB HU HP HO. unfold choose_bucket.
  erewrite bind_ok by reflexivity. cbv beta zeta.
  rewrite HB, HU, HP.
  erewrite bind_ok by reflexivity.
  erewrite bind_ok by reflexivity. cbv beta.
  rewrite HO. reflexivity.
Qed.

Lemma choose_bucket_reads_first_line (W : world) (c : config) (u line : string)
    (rest : list string) (s : state) :
  BUCKET_URI c = Some u -> bucket_unset (Some u) = false ->
  PyString.startswith u "gs://" = true ->
  shell_output W (gsutil_ls_location (bucket_name_of u)) = line :: rest ->
  fst (choose_bucket W c s)
  = if PyString.lower (PyString.strip line) =? REGION c then Ok u
    else Raise (ValueError
                  (msg_bucket_region (PyString.lower (PyString.strip line)) (REGION c))).
Proof.
  intros HB HU HP HO. unfold choose_bucket.
  erewrite bind_ok by reflexivity. cbv beta zeta.
  rewrite HB, HU, HP.
  erewrite bind_ok by reflexivity.
  erewrite bind_ok by reflexivity. cbv beta.
  rewrite HO. erewrite bind_ok by reflexivity. cbv beta.
  destruct (PyString.lower (PyString.strip line) =? REGION c); reflexivity.
Qed.

(** X11.  The region of the user's bucket is the first line of what the
    listing command left in the capture, whatever that line is.  When the
    capture is empty (the pipeline printed nothing, on either stream),
    [shell_output[0]] raises IndexError, not the ValueError about regions,
    and the run stops there with shell commands only in the log.  Nothing
    else makes the choice of the bucket raise IndexError: with a line in
    the capture, be it a line of error output of [gsutil] for a bucket that
    does not exist, that line is taken for the region, and the cell goes on
    with the user's bucket or raises the ValueError that quotes the line. *)
Theorem empty_bucket_listing_raises_index_error (W : world) (c : config) (u : string) :
  BUCKET_URI c = Some u -> PyString.strip u <> "" -> u <> "gs://" ->
  PyString.startswith u "gs://" = true ->
  (shell_output W (gsutil_ls_location (bucket_name_of u)) = [] ->
   run_all W c initial_state
   = (Raise IndexError,
      mk_state (preamble c
                ++ [(Shell (gsutil_ls_location (bucket_name_of u)), Returned)])%list 1))
  /\ (forall s,
        fst (choose_bucket W c s) = Raise IndexError
        <-> shell_output W (gsutil_ls_location (bucket_name_of u)) = [])
  /\ (forall line rest s,
        shell_output W (gsutil_ls_location (bucket_name_of u)) = line :: rest ->
        fst (choose_bucket W c s) = Ok u
        \/ fst (choose_bucket W c s)
           = Raise (ValueError
                      (msg_bucket_region (PyString.lower (PyString.strip line))
                         (REGION c)))).
Proof.
  intros HB Hblank Hgs HP.
  pose proof (bucket_set u Hblank Hgs) as HU.
  split; [|split].
  - intros HO. apply run_all_stops_in_bucket_cell.
    now apply choose_bucket_no_output.
  - intros s. split.
    + intros HI.
      destruct (shell_output W (gsutil_ls_location (bucket_name_of u)))
        as [|line rest] eqn:HO; [reflexivity|].
      rewrite (choose_bucket_reads_first_line W c u line rest s HB HU HP HO) in HI.
      destruct (PyString.lower (PyString.strip line) =? REGION c); discriminate HI.
    + intros HO. now rewrite (choose_bucket_no_output W c u s HB HU HP HO).
  - intros line rest s HO.
    rewrite (choose_bucket_reads_first_line W c u line rest s HB HU HP HO).
    destruct (PyString.lower (PyString.strip line) =? REGION c); auto.
Qed.

Lemma empty_bucket_listing_raises_index_error_witness :
  fst (run_all silent
         (form (Some "gs://my-bucket") "hf_abc" "gemma-2b" "NVIDIA_L4" "4bit" "" false)
         initial_state)
  = Raise IndexError.
Proof.
  destruct (empty_bucket_listing_raises_index_error silent
              (form (Some "gs://my-bucket") "hf_abc" "gemma-2b" "NVIDIA_L4" "4bit" ""
                 false)
              "gs://my-bucket") as [H _].
  - reflexivity.
  - vm_compute. discriminate.
  - discriminate.
  - reflexivity.
  - rewrite H; reflexivity.
Defined.

(** A bucket that does not exist: [gsutil] prints its error on standard
    error, the capture holds it, and the cell reads it as the region. *)
Example missing_bucket_raises_value_error :
  fst (run_all bucket_not_found
         (form (Some "gs://no-such-bucket") "hf_abc" "gemma-2b" "NVIDIA_L4" "4bit" "" false)
         initial_state)
  = Raise (ValueError
             (msg_bucket_region
                "bucketnotfoundexception: 404 gs://no-such-bucket bucket does not exist."
                "europe-west4")).
Proof. reflexivity. Qed.

(** X12.  A bucket of the user that starts with "gs://" and whose region,
    read from the first line [gsutil] prints, stripped and lower-cased, is
    REGION, is taken as it is: the cell goes on with the very text the user
    gave (path and all), and has run one [gsutil ls] on the bucket and no
    [gsutil mb]. *)
Theorem matching_bucket_is_used_as_given (W : world) (c : config) (u line : string)
    (rest : list string) (s : state) :
  BUCKET_URI c = Some u -> PyString.strip u <> "" -> u <> "gs://" ->
  PyString.startswith u "gs://" = true ->
  shell_output W (gsutil_ls_location (bucket_name_of u)) = line :: rest ->
  PyString.lower (PyString.strip line) = REGION c ->
  choose_bucket W c s
  = (Ok u,
     mk_state (log s ++ [(Shell (gsutil_ls_location (bucket_name_of u)), Returned)])%list
              (S (clock_reads s))).
Proof.
  intros HB Hblank Hgs HP HO HR. unfold choose_bucket.
  erewrite bind_ok by reflexivity. cbv beta zeta.
  rewrite HB, (bucket_set u Hblank Hgs), HP.
  erewrite bind_ok by reflexivity.
  erewrite bind_ok by reflexivity. cbv beta.
  rewrite HO. erewrite bind_ok by reflexivity. cbv beta.
  rewrite HR, String.eqb_refl. reflexivity.
Qed.

Lemma matching_bucket_is_used_as_given_witness :
  choose_bucket calm
    (form (Some "gs://my-bucket/runs") "hf_abc" "gemma-2b" "NVIDIA_L4" "4bit" "" false)
    initial_state
  = (Ok "gs://my-bucket/runs",
     mk_state [(Shell (gsutil_ls_location "gs://my-bucket"), Returned)] 1).
Proof.
  apply (matching_bucket_is_used_as_given calm
           (form (Some "gs://my-bucket/runs") "hf_abc" "gemma-2b" "NVIDIA_L4" "4bit" ""
              false)
           "gs://my-bucket/runs" "  EUROPE-WEST4" [] initial_state).
  - reflexivity.
  - vm_compute. discriminate.
  - discriminate.
  - reflexivity.
  - reflexivity.
  - reflexivity.
Defined.

Lemma last_item_app {A} (front : list A) (x : A) :
  PyString.last_item (front ++ [x])%list = Some x.
Proof. unfold PyString.last_item. now rewrite rev_app_distr. Qed.

Lemma has_char_app (c : ascii) (a b : string) :
  has_char c (a ++ b) = has_char c a || has_char c b.
Proof. induction a as [|d a IH]; simpl; [reflexivity | now rewrite IH, orb_assoc]. Qed.

Lemma rstrip_keeps_nonspace_end (s : string) (c : ascii) :
  PyString.isspace c = false ->
  PyString.rstrip (s ++ String c "") = s ++ String c "".
Proof.
  intros Hc. induction s as [|d s IH]; simpl.
  - now rewrite Hc.
  - rewrite IH. destruct s; reflexivity.
Qed.

Lemma remove_char_app_absent (c : ascii) (n t : string) :
  has_char c n = false ->
  PyString.remove_char c (n ++ t) = n ++ PyString.remove_char c t.
Proof.
  induction n as [|d n IH]; simpl; [reflexivity|].
  intros H. apply orb_false_iff in H. destruct H as [Hd Hn].
  now rewrite Hd, (IH Hn).
Qed.

(** The second half of the bucket cell, once the bucket is chosen. *)
Lemma cell_bucket_after_choice (W : world) (c : config) (s s1 : state) (uri : string) :
  choose_bucket W c s = (Ok uri, s1) ->
  let out := shell_output W (gcloud_projects_describe (PROJECT_ID c)) in
  let described :=
    mk_state (log s1 ++ [(Shell (gcloud_projects_describe (PROJECT_ID c)), Returned)])%list
             (clock_reads s1) in
  (PyString.last_item out = None ->
     cell_bucket W c s = (Raise IndexError, described))
  /\ (forall line,
        PyString.last_item out = Some line ->
        nth_error (PyString.split ":" line) 1 = None ->
        cell_bucket W c s = (Raise IndexError, described))
  /\ (forall line field,
        PyString.last_item out = Some line ->
        nth_error (PyString.split ":" line) 1 = Some field ->
        let account :=
          PyString.remove_char "'" (PyString.strip field)
          ++ "-compute@developer.gserviceaccount.com" in
        cell_bucket W c s
        = (Ok (mk_bucket_vars uri (PyString.os_path_join uri "temporal")
                 (PyString.os_path_join uri "gemma") account (bucket_name_of uri)),
           mk_state
             (log s1
              ++ [ (Shell (gcloud_projects_describe (PROJECT_ID c)), Returned);
                   (Shell (gsutil_iam_ch account (bucket_name_of uri)), Returned) ])%list
             (clock_reads s1))).
Proof.
  intros Hc. cbv zeta. unfold cell_bucket.
  erewrite bind_ok by exact Hc. cbv beta zeta.
  erewrite bind_ok by reflexivity. cbv beta.
  unfold index_last, index.
  split; [|split].
  - intros ->. reflexivity.
  - intros line -> Hn. erewrite bind_ok by reflexivity. cbv beta.
    rewrite Hn. reflexivity.
  - intros line field -> Hn. erewrite bind_ok by reflexivity. cbv beta.
    rewrite Hn. erewrite bind_ok by reflexivity. cbv beta.
    erewrite bind_ok by reflexivity.
    cbn [ret log clock_reads]. rewrite <- app_assoc. reflexivity.
Qed.

(** X13.  The service account is read off the last line of
    [gcloud projects describe].  When the command prints nothing, or its
    last line has no colon in it, the cell raises IndexError after that
    command: no permission is granted on the bucket ([gsutil iam ch] is not
    run), and in the run nothing follows. *)
Theorem unreadable_project_raises_index_error (W : world) (c : config)
    (s s1 : state) (uri : string) :
  choose_bucket W c s = (Ok uri, s1) ->
  let out := shell_output W (gcloud_projects_describe (PROJECT_ID c)) in
  (out = []
   \/ exists front line, out = (front ++ [line])%list /\ has_char ":" line = false) ->
  cell_bucket W c s
  = (Raise IndexError,
     mk_state (log s1 ++ [(Shell (gcloud_projects_describe (PROJECT_ID c)), Returned)])%list
              (clock_reads s1)).
Proof.
  intros Hc out H.
  destruct (cell_bucket_after_choice W c s s1 uri Hc) as (H0 & H1 & _).
  fold out in H0, H1.
  destruct H as [E|(front & line & E & Hl)].
  - apply H0. now rewrite E.
  - apply (H1 line).
    + rewrite E. apply last_item_app.
    + rewrite split_no_sep by exact Hl. reflexivity.
Qed.

Lemma unreadable_project_raises_index_error_witness :
  cell_bucket silent notebook_with_token initial_state
  = (Raise IndexError,
     mk_state [ (Shell (gsutil_mb "europe-west4"
                          "gs://crafty-progress-421108-tmp-20240305102030"), Returned);
                (Shell (gcloud_projects_describe "crafty-progress-421108"), Returned) ] 1).
Proof.
  apply (unreadable_project_raises_index_error silent notebook_with_token initial_state
           (mk_state [ (Shell (gsutil_mb "europe-west4"
                                 "gs://crafty-progress-421108-tmp-20240305102030"),
                        Returned) ] 1)
           "gs://crafty-progress-421108-tmp-20240305102030").
  - reflexivity.
  - left. reflexivity.
Defined.

Lemma quoted_number_is_unquoted (number : string) :
  has_char "'" number = false ->
  PyString.remove_char "'" (PyString.strip (" '" ++ number ++ "'")) = number.
Proof.
  intros Hq. unfold PyString.strip.
  change (PyString.lstrip (" '" ++ number ++ "'")) with (String "'" number ++ "'").
  rewrite rstrip_keeps_nonspace_end by reflexivity.
  change (String "'" number ++ "'") with (String "'" (number ++ "'")).
  change (PyString.remove_char "'" (String "'" (number ++ "'")))
    with (PyString.remove_char "'" (number ++ "'")).
  rewrite remove_char_app_absent by exact Hq.
  change (PyString.remove_char "'" "'") with "".
  apply string_app_empty_r.
Qed.

(** X14.  When the last line that [gcloud projects describe] prints is
    "<key>: '<number>'", the cell takes <number> out of it (the text after
    the first colon, stripped, the quotes removed), uses
    "<number>-compute@developer.gserviceaccount.com" as the service
    account, grants it the bucket (the URI without its path), and puts the
    staging and model folders under the URI. *)
Theorem service_account_from_project_number (W : world) (c : config)
    (s s1 : state) (uri key number : string) (front : list string) :
  choose_bucket W c s = (Ok uri, s1) ->
  shell_output W (gcloud_projects_describe (PROJECT_ID c))
    = (front ++ [(key ++ ": '" ++ number ++ "'")%string])%list ->
  has_char ":" key = false ->
  has_char ":" number = false ->
  has_char "'" number = false ->
  let account := number ++ "-compute@developer.gserviceaccount.com" in
  cell_bucket W c s
  = (Ok (mk_bucket_vars uri (PyString.os_path_join uri "temporal")
           (PyString.os_path_join uri "gemma") account (bucket_name_of uri)),
     mk_state
       (log s1
        ++ [ (Shell (gcloud_projects_describe (PROJECT_ID c)), Returned);
             (Shell (gsutil_iam_ch account (bucket_name_of uri)), Returned) ])%list
       (clock_reads s1)).
Proof.
  intros Hc HO Hk Hn Hq account.
  destruct (cell_bucket_after_choice W c s s1 uri Hc) as (_ & _ & H2).
  cbv zeta in H2.
  specialize (H2 (key ++ ": '" ++ number ++ "'") (" '" ++ number ++ "'")).
  rewrite H2.
  - rewrite quoted_number_is_unquoted by exact Hq. reflexivity.
  - rewrite HO. apply last_item_app.
  - change (key ++ ": '" ++ number ++ "'")
      with (key ++ String ":" (" '" ++ number ++ "'")).
    rewrite split_app_sep by exact Hk.
    rewrite split_no_sep; [reflexivity|].
    cbn [append has_char]. rewrite has_char_app, Hn. reflexivity.
Qed.

Lemma service_account_from_project_number_witness :
  fst (cell_bucket calm notebook_with_token initial_state)
  = Ok (mk_bucket_vars "gs://crafty-progress-421108-tmp-20240305102030"
          (PyString.os_path_join "gs://crafty-progress-421108-tmp-20240305102030" "temporal")
          (PyString.os_path_join "gs://crafty-progress-421108-tmp-20240305102030" "gemma")
          ("123456789012" ++ "-compute@developer.gserviceaccount.com")
          (bucket_name_of "gs://crafty-progress-421108-tmp-20240305102030")).
Proof.
  rewrite (service_account_from_project_number calm notebook_with_token initial_state
             (mk_state [ (Shell (gsutil_mb "europe-west4"
                                   "gs://crafty-progress-421108-tmp-20240305102030"),
                          Returned) ] 1)
             "gs://crafty-progress-421108-tmp-20240305102030"
             "projectNumber" "123456789012"
             [ "createTime: '2024-01-10T09:00:00.000Z'";
               "lifecycleState: ACTIVE";
               "name: crafty-progress";
               "projectId: crafty-progress-421108" ]).
  - reflexivity.
  - reflexivity.
  - reflexivity.
  - reflexivity.
  - reflexivity.
  - reflexivity.
Defined.

(** ** The Predict cell, when the endpoint cannot be loaded *)

(** X15.  When the form names an endpoint and loading it raises, the
    Predict cell raises that error and sends no prediction request, neither
    to the named endpoint nor to the one the Deploy cell made. *)
Theorem predict_needs_the_named_endpoint
    (W : world) (c : config) (endpoint0 : endpoint) (s : state) :
  PyString.truthy (ENDPOINT_NAME c) = true ->
  sdk_raises W (log s) (Endpoint_load (aip_endpoint_name c)) = true ->
  cell_predict W c endpoint0 s
  = (Raise (SdkError (Endpoint_load (aip_endpoint_name c))),
     mk_state (log s ++ [(Endpoint_load (aip_endpoint_name c), Raised)])%list
              (clock_reads s))
  /\ predict_requests (emitted (cell_predict W c endpoint0) s) = [].
Proof.
  intros HT HL.
  assert (E : cell_predict W c endpoint0 s
              = (Raise (SdkError (Endpoint_load (aip_endpoint_name c))),
                 mk_state (log s ++ [(Endpoint_load (aip_endpoint_name c), Raised)])%list
                          (clock_reads s))).
  { unfold cell_predict. rewrite HT.
    apply bind_raise. apply bind_raise. apply sdk_fails. exact HL. }
  split; [exact E|].
  unfold emitted. rewrite E. cbn [snd log]. now rewrite skipn_length_app.
Qed.

Lemma predict_needs_the_named_endpoint_witness :
  let gone :=
    mk_world sample_clock sample_shell
      (fun _ k => match k with Endpoint_load _ => true | _ => false end) in
  predict_requests
    (emitted (cell_predict gone
                (form (Some "gs://") "hf_abc" "gemma-2b" "NVIDIA_L4" "4bit" "42" false)
                (CreatedEndpoint 8 "serve-endpoint"))
       initial_state)
  = [].
Proof.
  intros gone.
  apply (predict_needs_the_named_endpoint gone
           (form (Some "gs://") "hf_abc" "gemma-2b" "NVIDIA_L4" "4bit" "42" false)
           (CreatedEndpoint 8 "serve-endpoint") initial_state);
    reflexivity.
Defined.

(** ** The clean-up cell, for any dictionaries *)

Lemma for_each_sdk_returns (W : world) {A} (k : A -> call) (xs : list A) (s : state) :
  cooperative W ->
  for_each xs (fun x => bind (sdk W (k x)) (fun _ => ret tt)) s
  = (Ok tt, mk_state (log s ++ returned_calls k xs)%list (clock_reads s)).
Proof.
  intros HW. revert s. induction xs as [|x xs IH]; intros s.
  - simpl. rewrite app_nil_r. now destruct s.
  - cbn [for_each]. 
    erewrite bind_ok
      by (erewrite bind_ok by (apply sdk_returns; apply HW); reflexivity).
    rewrite IH. cbn [log clock_reads returned_calls map].
    now rewrite <- app_assoc.
Qed.

Lemma cell_cleanup_returns (W : world) (c : config) (b : bucket_vars) (g : init_vars)
    (f : finetune_vars) (s : state) :
  cooperative W ->
  cell_cleanup W c b g f s
  = (Ok tt,
     mk_state
       (log s
        ++ [(TrainingJob_delete (train_job f), Returned)]
        ++ returned_calls (fun e => Endpoint_delete e true) (dict_values (endpoints g))
        ++ returned_calls Model_delete (dict_values (models g))
        ++ (if delete_bucket c then [(Shell (gsutil_rm (BUCKET_URI' b)), Returned)]
            else []))%list
       (clock_reads s)).
Proof.
  intros HW. unfold cell_cleanup.
  erewrite bind_ok by (apply sdk_returns; apply HW).
  erewrite bind_ok by (apply for_each_sdk_returns; exact HW).
  erewrite bind_ok by (apply for_each_sdk_returns; exact HW).
  cbn [log clock_reads].
  destruct (delete_bucket c); unfold shell, ret; cbn [log clock_reads];
    rewrite <- ?app_assoc, ?app_nil_r; reflexivity.
Qed.

(** X16.  On a platform where every call returns, the clean-up cell
    deletes the training job, then every endpoint held in [endpoints] (with
    [force=True], in the order they were put in), then every model held in
    [models], and removes the bucket when, and only when, [delete_bucket]
    is set: its two loops do their work for whatever the dictionaries
    hold. *)
Theorem cleanup_deletes_what_the_dictionaries_hold
    (W : world) (c : config) (b : bucket_vars) (g : init_vars)
    (f : finetune_vars) (s : state) :
  cooperative W ->
  fst (cell_cleanup W c b g f s) = Ok tt
  /\ emitted (cell_cleanup W c b g f) s
     = ([(TrainingJob_delete (train_job f), Returned)]
        ++ returned_calls (fun e => Endpoint_delete e true) (dict_values (endpoints g))
        ++ returned_calls Model_delete (dict_values (models g))
        ++ (if delete_bucket c then [(Shell (gsutil_rm (BUCKET_URI' b)), Returned)]
            else []))%list.
Proof.
  intros HW. unfold emitted. rewrite (cell_cleanup_returns W c b g f s HW).
  cbn [fst snd log]. split; [reflexivity | apply skipn_length_app].
Qed.

Lemma cleanup_deletes_what_the_dictionaries_hold_witness :
  emitted (cell_cleanup calm notebook_with_token sample_bucket_vars
             (mk_init_vars
                [("vllm_gpu", mk_model 9 "serve")]
                [("vllm_gpu", CreatedEndpoint 8 "serve-endpoint")])
             (mk_finetune_vars "google/gemma-2b" (Some "n1-standard-8") "job"
                (mk_training_job 6 "job" TRAIN_DOCKER_URI) "a" "b" "c" "d"))
    initial_state
  = [ (TrainingJob_delete (mk_training_job 6 "job" TRAIN_DOCKER_URI), Returned);
      (Endpoint_delete (CreatedEndpoint 8 "serve-endpoint") true, Returned);
      (Model_delete (mk_model 9 "serve"), Returned) ].
Proof.
  apply (cleanup_deletes_what_the_dictionaries_hold calm notebook_with_token
           sample_bucket_vars
           (mk_init_vars
              [("vllm_gpu", mk_model 9 "serve")]
              [("vllm_gpu", CreatedEndpoint 8 "serve-endpoint")])
           (mk_finetune_vars "google/gemma-2b" (Some "n1-standard-8") "job"
              (mk_training_job 6 "job" TRAIN_DOCKER_URI) "a" "b" "c" "d")
           initial_state).
  intros l k. reflexivity.
Defined.

Lemma ran_app_true (a b : list call) (l1 l2 : list event) (ok : bool) :
  ran a l1 true -> ran b l2 ok -> ran (a ++ b)%list (l1 ++ l2)%list ok.
Proof.
  intros Ha Hb. remember true as t eqn:Et.
  induction Ha as [|k rest l ok' Ha IH|k rest]; subst; simpl.
  - exact Hb.
  - constructor. now apply IH.
  - discriminate Et.
Qed.

Lemma ran_app_false (a b : list call) (l : list event) :
  ran a l false -> ran (a ++ b)%list l false.
Proof.
  intros Ha. remember false as t eqn:Et.
  induction Ha as [|k rest l ok' Ha IH|k rest]; subst; simpl.
  - discriminate Et.
  - constructor. now apply IH.
  - constructor.
Qed.

(** A loop of SDK calls makes them in order and stops at the first that
    raises. *)
Lemma for_each_ran (W : world) {A} (k : A -> call) (xs : list A) (s : state) :
  exists l ok r,
    for_each xs (fun x => bind (sdk W (k x)) (fun _ => ret tt)) s
    = (r, mk_state (log s ++ l)%list (clock_reads s))
    /\ ran (map k xs) l ok
    /\ (ok = true -> r = Ok tt)
    /\ (ok = false -> exists e, r = Raise e).
Proof.
  revert s. induction xs as [|x xs IH]; intros s.
  - exists [], true, (Ok tt). simpl. rewrite app_nil_r.
    split; [now destruct s|]. split; [constructor|]. split; [auto | discriminate].
  - cbn [for_each map].
    destruct (sdk_raises W (log s) (k x)) eqn:E.
    + exists [(k x, Raised)], false, (Raise (SdkError (k x))).
      split.
      * apply bind_raise. apply bind_raise. apply sdk_fails. exact E.
      * split; [constructor|]. split; [discriminate | eauto].
    + erewrite bind_ok
        by (erewrite bind_ok by (apply sdk_returns; exact E); reflexivity).
      destruct (IH (mk_state (log s ++ [(k x, Returned)])%list (clock_reads s)))
        as (l & ok & r & Hrun & Hran & Hok & Hbad).
      exists ((k x, Returned) :: l), ok, r.
      split.
      * rewrite Hrun. cbn [log clock_reads]. now rewrite <- app_assoc.
      * split; [now constructor|]. split; assumption.
Qed.

(** X17.  On any platform the clean-up cell makes its deletions in the
    order of the source (the training job, the endpoints, the models, the
    bucket if asked) and stops at the first one that raises: what comes
    after a failed deletion is never deleted, and the cell ends normally
    exactly when every deletion returned. *)
Theorem cleanup_stops_at_first_failure
    (W : world) (c : config) (b : bucket_vars) (g : init_vars)
    (f : finetune_vars) (s : state) :
  exists ok,
    ran (cleanup_calls c b g f) (emitted (cell_cleanup W c b g f) s) ok
    /\ (ok = true <-> fst (cell_cleanup W c b g f s) = Ok tt).
Proof.
  unfold emitted, cell_cleanup, cleanup_calls.
  destruct (sdk_raises W (log s) (TrainingJob_delete (train_job f))) eqn:E0.
  { exists false. erewrite bind_raise by (apply sdk_fails; exact E0).
    cbn [fst snd log]. rewrite skipn_length_app.
    split; [constructor | split; discriminate]. }
  erewrite bind_ok by (apply sdk_returns; exact E0).
  match goal with
  | |- context [bind (for_each ?xs _) _ ?st] =>
      destruct (for_each_ran W (fun e => Endpoint_delete e true) xs st)
        as (l1 & ok1 & r1 & H1 & R1 & Hok1 & Hbad1)
  end.
  cbn [log clock_reads] in H1.
  destruct ok1.
  2:{ destruct (Hbad1 eq_refl) as [e1 He1]. subst r1.
      exists false. erewrite bind_raise by exact H1.
      cbn [fst snd log]. rewrite <- app_assoc, skipn_length_app.
      split; [|split; discriminate].
      cbn [app]. constructor. now apply ran_app_false. }
  rewrite (Hok1 eq_refl) in H1.
  erewrite bind_ok by exact H1.
  match goal with
  | |- context [bind (for_each ?xs _) _ ?st] =>
      destruct (for_each_ran W Model_delete xs st)
        as (l2 & ok2 & r2 & H2 & R2 & Hok2 & Hbad2)
  end.
  cbn [log clock_reads] in H2.
  destruct ok2.
  2:{ destruct (Hbad2 eq_refl) as [e2 He2]. subst r2.
      exists false. erewrite bind_raise by exact H2.
      cbn [fst snd log]. rewrite <- !app_assoc, skipn_length_app.
      split; [|split; discriminate].
      cbn [app]. constructor. apply ran_app_true; [exact R1|]. now apply ran_app_false. }
  rewrite (Hok2 eq_refl) in H2.
  erewrite bind_ok by exact H2.
  exists true.
  destruct (delete_bucket c); unfold shell, ret; cbn [fst snd log];
    rewrite <- !app_assoc, skipn_length_app;
    (split; [|split; reflexivity]);
    cbn [app]; apply ran_step;
    (apply ran_app_true; [exact R1|]);
    first [ apply ran_app_true; [exact R2|]; repeat constructor
          | rewrite app_nil_r; exact R2 ].
Qed.

Example cleanup_stops_at_failed_endpoint :
  let stuck :=
    mk_world sample_clock sample_shell
      (fun _ k => match k with Endpoint_delete _ _ => true | _ => false end) in
  emitted (cell_cleanup stuck
             (form (Some "gs://") "hf_abc" "gemma-2b" "NVIDIA_L4" "4bit" "" true)
             sample_bucket_vars
             (mk_init_vars
                [("vllm_gpu", mk_model 9 "serve")]
                [("vllm_gpu", CreatedEndpoint 8 "serve-endpoint")])
             (mk_finetune_vars "google/gemma-2b" (Some "n1-standard-8") "job"
                (mk_training_job 6 "job" TRAIN_DOCKER_URI) "a" "b" "c" "d"))
    initial_state
  = [ (TrainingJob_delete (mk_training_job 6 "job" TRAIN_DOCKER_URI), Returned);
      (Endpoint_delete (CreatedEndpoint 8 "serve-endpoint") true, Raised) ].
Proof. reflexivity. Qed.

(** ** The whole run *)

Lemma cell_init_returns (W : world) (c : config) (b : bucket_vars) (s : state) :
  cooperative W -> HF_TOKEN c <> "" ->
  cell_init W c b s
  = (Ok (mk_init_vars [] []),
     mk_state (log s ++ [(aiplatform_init (PROJECT_ID c) (REGION c) (STAGING_BUCKET b),
                          Returned)])%list
              (clock_reads s)).
Proof.
  intros HW HT. apply truthy_nonempty in HT. unfold cell_init. cbv zeta.
  erewrite bind_ok by (apply sdk_returns; apply HW).
  rewrite HT. reflexivity.
Qed.

Lemma cell_finetune_runs (W : world) (c : config) (b : bucket_vars) (s : state)
    (mt : option string) :
  cooperative W ->
  validate (MODEL_ID c) (ACCELERATOR_TYPE c) (finetuning_precision_mode c) = Ok mt ->
  let t := clock_reads s in
  let name := "gemma-lora-train" ++ "_" ++ YYYYMMDD_HHMMSS (now W t) in
  let adapter := "gemma-lora-adapter" ++ "_" ++ YYYYMMDD_HHMMSS (now W (1 + t)) in
  let merged := "gemma-merged-model" ++ "_" ++ YYYYMMDD_HHMMSS (now W (2 + t)) in
  let job := mk_training_job (List.length (log s)) name TRAIN_DOCKER_URI in
  let base := PyString.os_path_join "google/" (MODEL_ID c) in
  let out := PyString.os_path_join (STAGING_BUCKET b) adapter in
  let mout := PyString.os_path_join (STAGING_BUCKET b) merged in
  cell_finetune W c b s
  = (Ok (mk_finetune_vars base mt name job adapter out merged mout),
     mk_state
       (log s
        ++ [ (CustomContainerTrainingJob name TRAIN_DOCKER_URI, Returned);
             (TrainingJob_run job
                (mk_run_request (train_args c base out mout "")
                   [("WANDB_DISABLED", VBool true)] 1 mt (ACCELERATOR_TYPE c) 1 500
                   (SERVICE_ACCOUNT b)),
              Returned) ])%list
       (3 + t)).
Proof.
  intros HW HV. cbv zeta. unfold cell_finetune. cbv zeta. rewrite HV.
  erewrite bind_ok by reflexivity.
  erewrite bind_ok by apply job_name_eq.
  erewrite bind_ok by (apply sdk_returns; apply HW).
  erewrite bind_ok by apply job_name_eq.
  erewrite bind_ok by apply job_name_eq.
  erewrite bind_ok by (apply sdk_returns; apply HW).
  cbn [ret log clock_reads plus]. now rewrite <- app_assoc.
Qed.

Lemma cell_deploy_runs (W : world) (c : config) (b : bucket_vars) (f : finetune_vars)
    (s : state) :
  cooperative W ->
  let name := "gemma-vllm-serve" ++ "_" ++ YYYYMMDD_HHMMSS (now W (clock_reads s)) in
  let ep := CreatedEndpoint (List.length (log s)) (name ++ "-endpoint") in
  let m := mk_model (List.length (log s) + 1) name in
  exists u,
    (display_name u = name
     /\ In ("--model=" ++ merged_model_output_dir f) (serving_container_args u)
     /\ dict_get (serving_container_environment_variables u) "HF_TOKEN"
        = forwarded_token (Some (HF_TOKEN c)))
    /\ cell_deploy W c b f s
       = (Ok (m, ep),
          mk_state
            (log s
             ++ [ (Endpoint_create (name ++ "-endpoint"), Returned);
                  (Model_upload u, Returned);
                  (Model_deploy m
                     (mk_deploy_request ep (serve_machine_type c)
                        (serve_accelerator_type c) (serve_accelerator_count c) 1800
                        (SERVICE_ACCOUNT b)),
                   Returned) ])%list
            (S (clock_reads s))).
Proof.
  intros HW. cbv zeta. unfold cell_deploy. cbv zeta.
  erewrite bind_ok by apply job_name_eq.
  match goal with
  | |- context [deploy_model_vllm W ?hf ?n ?mid ?sa ?base ?mty ?aty ?ac ?g ?mml ?dt ?st] =>
      destruct (deploy_model_vllm_cases W hf n mid sa base mty aty ac g mml dt st)
        as (u & (Hn & _ & _ & _ & _ & Htok & Hmodel & _) & Hcases);
      assert (Hok : exists v s', deploy_model_vllm W hf n mid sa base mty aty ac g mml dt st
                                 = (Ok v, s'))
  end.
  { unfold deploy_model_vllm. cbv zeta.
    erewrite bind_ok by (apply sdk_returns; apply HW).
    erewrite bind_ok by (apply sdk_returns; apply HW).
    erewrite bind_ok by (apply sdk_returns; apply HW).
    eexists. eexists. reflexivity. }
  exists u. split; [auto|].
  cbv zeta in Hcases. cbn [log clock_reads] in Hcases.
  destruct Hok as (v & s' & Hok).
  destruct Hcases as [Hc|[Hc|[Hc|Hc]]]; rewrite Hc in Hok; try discriminate Hok.
  exact Hc.
Qed.

Lemma cell_predict_runs (W : world) (c : config) (endpoint0 : endpoint) (s : state) :
  cooperative W ->
  cell_predict W c endpoint0 s
  = (Ok (predict_target c endpoint0),
     mk_state
       (log s
        ++ (if PyString.truthy (ENDPOINT_NAME c)
            then [(Endpoint_load (aip_endpoint_name c), Returned)] else [])
        ++ [(Endpoint_predict (predict_target c endpoint0) (predict_instances c),
             Returned)])%list
       (clock_reads s)).
Proof.
  intros HW. unfold cell_predict, predict_target.
  destruct (PyString.truthy (ENDPOINT_NAME c)).
  - erewrite bind_ok
      by (erewrite bind_ok by (apply sdk_returns; apply HW); reflexivity).
    cbv beta zeta.
    erewrite bind_ok by (apply sdk_returns; apply HW).
    cbn [ret log clock_reads]. now rewrite <- app_assoc.
  - erewrite bind_ok by reflexivity. cbv beta zeta.
    erewrite bind_ok by (apply sdk_returns; apply HW).
    reflexivity.
Qed.

(** X18.  On a platform where every SDK call returns, a run whose bucket
    cell has returned, whose token is not empty and whose configuration
    passes the validation ends normally, and after the bucket cell it has
    made these calls, in this order and no others: init, the training job
    and its run, the endpoint, the upload, the deployment, the load of a
    named endpoint if the form names one, one prediction, the deletion of
    the training job, and the removal of the bucket if asked.  The model
    served is the merged model the training job was told to write. *)
Theorem run_on_a_cooperative_platform (W : world) (c : config) (b : bucket_vars)
    (s1 : state) (mt : option string) :
  cooperative W ->
  cell_bucket W c (mk_state (preamble c) 0) = (Ok b, s1) ->
  HF_TOKEN c <> "" ->
  validate (MODEL_ID c) (ACCELERATOR_TYPE c) (finetuning_precision_mode c) = Ok mt ->
  let final := run_all W c initial_state in
  let after_bucket := skipn (List.length (log s1)) (log (snd final)) in
  fst final = Ok tt
  /\ map (fun ev => step_of (fst ev)) after_bucket
     = ([step_init; step_create_job; step_run_job;
         step_create_endpoint; step_upload; step_deploy]
        ++ (if PyString.truthy (ENDPOINT_NAME c) then [step_load_endpoint] else [])
        ++ [step_predict; step_delete_job]
        ++ (if delete_bucket c then [step_shell] else []))%list
  /\ Forall (fun ev => snd ev = Returned) after_bucket
  /\ clock_reads (snd final) = (4 + clock_reads s1)%nat
  /\ exists job r u dir,
       In (TrainingJob_run job r, Returned) after_bucket
       /\ In (Model_upload u, Returned) after_bucket
       /\ In ("--merge_base_and_lora_output_dir=" ++ dir) (args r)
       /\ In ("--model=" ++ dir) (serving_container_args u).
Proof.
  intros HW Hb HT HV final after_bucket. subst after_bucket final.
  unfold run_all.
  erewrite bind_ok by reflexivity.
  erewrite bind_ok by reflexivity.
  erewrite bind_ok by exact Hb.
  erewrite bind_ok by (apply cell_init_returns; assumption).
  erewrite bind_ok by (apply cell_finetune_runs; eassumption).
  cbv beta.
  match goal with
  | |- context [bind (cell_deploy W c b ?f) _ ?st] =>
      destruct (cell_deploy_runs W c b f st HW) as (u & (Hn & Hmodel & _) & Hd)
  end.
  cbv zeta in Hd.
  erewrite bind_ok by exact Hd.
  erewrite bind_ok by (apply cell_predict_runs; exact HW).
  rewrite (cell_cleanup_returns W c b _ _ _ HW).
  cbn [fst snd log clock_reads endpoints models dict_values map returned_calls app plus].
  rewrite <- !app_assoc, skipn_length_app.
  cbn [merged_model_output_dir] in Hmodel.
  split; [reflexivity|]. split; [|split; [|split]].
  - destruct (PyString.truthy (ENDPOINT_NAME c)), (delete_bucket c); reflexivity.
  - destruct (PyString.truthy (ENDPOINT_NAME c)), (delete_bucket c);
      repeat constructor.
  - reflexivity.
  - eexists _, _, u, _. split; [|split; [|split]].
    + cbn [app]. right. right. left. reflexivity.
    + cbn [app]. do 4 right. left. reflexivity.
    + cbn [args train_args]. do 5 right. left. reflexivity.
    + exact Hmodel.
Qed.

Lemma run_on_a_cooperative_platform_witness :
  fst (run_all calm notebook_with_token initial_state) = Ok tt
  /\ map (fun ev => step_of (fst ev))
       (skipn 5 (log (snd (run_all calm notebook_with_token initial_state))))
     = [step_init; step_create_job; step_run_job; step_create_endpoint; step_upload;
        step_deploy; step_predict; step_delete_job].
Proof.
  destruct (cell_bucket calm notebook_with_token (mk_state (preamble notebook_with_token) 0))
    as [[b|e] s1] eqn:E.
  - destruct (run_on_a_cooperative_platform calm notebook_with_token b s1
                (Some "n1-standard-8")) as (H1 & H2 & _).
    + intros l k. reflexivity.
    + exact E.
    + simpl. discriminate.
    + reflexivity.
    + split; [exact H1|].
      assert (L : List.length (log s1) = 5%nat).
      { vm_compute in E. inversion E. reflexivity. }
      rewrite L in H2. exact H2.
  - vm_compute in E. discriminate E.
Defined.

Lemma nth_error_head {A} (l : list A) (x : A) :
  nth_error l 0 = Some x -> exists rest, l = x :: rest.
Proof. destruct l as [|y l]; simpl; intros H; [discriminate | inversion H; eauto]. Qed.

Lemma logs_shell_capture_output (W : world) (P : event -> Prop) (k : shell_cmd) :
  P (Shell k, Returned) ->
  logs P (fun out => out = shell_output W k) (shell_capture W k).
Proof.
  intros Hk s. exists [(Shell k, Returned)]. simpl.
  split; [reflexivity|]. split; [auto|]. intros a E. now inversion E.
Qed.

(** From here on a captured shell command is known by what it printed. *)
Ltac logs_prim ::=
  first [ apply logs_ret | apply logs_raise | apply logs_lift | apply logs_assert
        | apply logs_index | apply logs_index_last | apply logs_datetime_now
        | apply logs_sdk | apply logs_shell | apply logs_shell_capture_output ].

(** X19.  The guards are all in the way of a full run: a run of the
    notebook that ends normally, on any platform, had a token that is not
    empty and a configuration that passes the validation, and either no
    bucket of the user's or one that starts with "gs://" and whose region,
    as [gsutil] printed it first, stripped and lower-cased, is REGION. *)
Theorem completed_run_had_valid_inputs (W : world) (c : config) :
  fst (run_all W c initial_state) = Ok tt ->
  HF_TOKEN c <> ""
  /\ (exists mt,
        validate (MODEL_ID c) (ACCELERATOR_TYPE c) (finetuning_precision_mode c) = Ok mt)
  /\ (bucket_unset (BUCKET_URI c) = true
      \/ exists u line rest,
           BUCKET_URI c = Some u
           /\ PyString.startswith u "gs://" = true
           /\ shell_output W (gsutil_ls_location (bucket_name_of u)) = line :: rest
           /\ PyString.lower (PyString.strip line) = REGION c).
Proof.
  intros H.
  assert (L : logs (fun _ => True)
                (fun _ : unit =>
                   HF_TOKEN c <> ""
                   /\ (exists mt,
                         validate (MODEL_ID c) (ACCELERATOR_TYPE c)
                           (finetuning_precision_mode c) = Ok mt)
                   /\ (bucket_unset (BUCKET_URI c) = true
                       \/ exists u line rest,
                            BUCKET_URI c = Some u
                            /\ PyString.startswith u "gs://" = true
                            /\ shell_output W (gsutil_ls_location (bucket_name_of u))
                               = line :: rest
                            /\ PyString.lower (PyString.strip line) = REGION c))
                (run_all W c)).
  { unfold_cells. logs_walk ltac:(contradiction).
    all: try exact I.
    all: (split; [apply truthy_nonempty; assumption|]);
      (split; [eexists; eassumption|]);
      first
        [ left; reflexivity
        | right;
          destruct (BUCKET_URI c) as [u|] eqn:HB;
          [ match goal with
            | Hn : nth_error _ 0 = Some ?line, Hr : negb _ = false |- _ =>
                apply nth_error_head in Hn; destruct Hn as [rest Hn];
                apply negb_false_iff, String.eqb_eq in Hr;
                exists u, line, rest; repeat split; assumption
            end
          | match goal with
            | Hp : PyString.startswith _ _ = true |- _ => discriminate Hp
            end ] ]. }
  destruct (L initial_state) as (t & _ & _ & HQ). exact (HQ tt H).
Qed.

Lemma completed_run_had_valid_inputs_witness :
  HF_TOKEN notebook_with_token <> ""
  /\ exists mt,
       validate (MODEL_ID notebook_with_token) (ACCELERATOR_TYPE notebook_with_token)
         (finetuning_precision_mode notebook_with_token) = Ok mt.
Proof.
  destruct (completed_run_had_valid_inputs calm notebook_with_token) as (H1 & H2 & _).
  - vm_compute. reflexivity.
  - split; [exact H1 | exact H2].
Defined.

(** X20.  One service account serves the whole run: the account that is
    granted [roles/storage.admin] on the bucket, the account the training
    job runs as and the account the model is deployed with are the same,
    the one read off the last line of [gcloud projects describe]. *)
Theorem one_service_account_throughout (W : world) (c : config) (ev : event)
    (account : string) :
  In ev (log (snd (run_all W c initial_state))) ->
  service_account_of (fst ev) = Some account ->
  account = described_account W c.
Proof.
  revert ev account.
  assert (L : logs (fun ev => forall account,
                      service_account_of (fst ev) = Some account ->
                      account = described_account W c)
                   (fun _ => True) (run_all W c)).
  { unfold_cells. logs_walk ltac:(contradiction).
    all: try exact I.
    all: cbn [fst service_account_of SERVICE_ACCOUNT run_service_account
              dr_service_account];
      intros acc Hacc; try discriminate Hacc; inversion Hacc; subst;
      unfold described_account;
      repeat match goal with
             | H : PyString.last_item _ = Some _ |- _ => rewrite H; clear H
             | H : nth_error _ 1 = Some _ |- _ => rewrite H; clear H
             end;
      reflexivity. }
  intros ev account Hev. 
  pose proof (logs_all _ _ _ initial_state L (Forall_nil _)) as F.
  rewrite Forall_forall in F. exact (F ev Hev account).
Qed.

Lemma one_service_account_throughout_witness :
  forallb (fun ev => match service_account_of (fst ev) with
                     | Some a => String.eqb a "123456789012-compute@developer.gserviceaccount.com"
                     | None => true
                     end)
          (log (snd (run_all calm notebook_with_token initial_state))) = true
  /\ List.length
       (filter (fun ev => match service_account_of (fst ev) with
                          | Some _ => true
                          | None => false
                          end)
               (log (snd (run_all calm notebook_with_token initial_state)))) = 3%nat.
Proof.
  split; [|reflexivity].
  apply forallb_forall. intros ev Hev.
  destruct (service_account_of (fst ev)) as [a|] eqn:E; [|reflexivity].
  rewrite (one_service_account_throughout calm notebook_with_token ev a Hev E).
  reflexivity.
Defined.

Lemma contains_has_last_char (c d : ascii) (m : string) :
  PyString.contains (String c (String d "")) m = true -> has_char d m = true.
Proof.
  intros H. apply contains_substring in H. destruct H as (p & q & ->).
  rewrite has_char_app. cbn [append has_char]. rewrite Ascii.eqb_refl.
  destruct (has_char d p), (Ascii.eqb c d); reflexivity.
Qed.

(** X21.  The test for a 7B model is a substring test on the text "7b"
    with a small b: a model identifier with no small "b" in it (such as one
    written in capitals) is not taken for a 7B model, and the validation
    lets it through on the V100 and, in any precision mode, on the L4. *)
Theorem seven_b_test_is_case_sensitive (model_id precision_mode : string) :
  has_char "b" model_id = false ->
  validate model_id "NVIDIA_TESLA_V100" precision_mode = Ok (Some "n1-standard-8")
  /\ validate model_id "NVIDIA_L4" precision_mode = Ok (Some "g2-standard-12").
Proof.
  intros H.
  assert (H7 : PyString.contains "7b" model_id = false).
  { destruct (PyString.contains "7b" model_id) eqn:E; [|reflexivity].
    apply contains_has_last_char in E. congruence. }
  unfold validate. rewrite H7. split; reflexivity.
Qed.

Lemma seven_b_test_is_case_sensitive_witness :
  validate "GEMMA-7B" "NVIDIA_TESLA_V100" "float16" = Ok (Some "n1-standard-8").
Proof.
  apply (seven_b_test_is_case_sensitive "GEMMA-7B" "float16"). reflexivity.
Defined.

Lemma cell_deploy_emits_what_deploy_does (W : world) (c : config) (b : bucket_vars)
    (f : finetune_vars) (s : state) :
  emitted (cell_deploy W c b f) s
  = emitted
      (deploy_model_vllm W (Some (HF_TOKEN c))
         ("gemma-vllm-serve" ++ "_" ++ YYYYMMDD_HHMMSS (now W (clock_reads s)))
         (merged_model_output_dir f) (SERVICE_ACCOUNT b)
         (Some ("google/" ++ MODEL_ID c))
         (serve_machine_type c) (serve_accelerator_type c) (serve_accelerator_count c)
         "0.9" (max_model_len c) "auto")
      (mk_state (log s) (S (clock_reads s))).
Proof.
  unfold emitted, cell_deploy. cbv zeta.
  erewrite bind_ok by apply job_name_eq. reflexivity.
Qed.

Lemma prepended_text_differs (a m : string) : a <> "" -> a ++ m <> m.
Proof.
  intros Ha E. apply (f_equal String.length) in E.
  rewrite string_length_app in E. destruct a; [congruence | simpl in E; lia].
Qed.

(** X22.  The Finetune cell builds the base model identifier with
    [os.path.join] and the Deploy cell with an f-string.  The model the
    training job is given as [--pretrained_model_id] and the MODEL_ID of the
    serving container are the same text exactly when MODEL_ID does not
    start with "/"; a MODEL_ID that starts with "/" reaches the training
    job without the "google/" in front and the container with it. *)
Theorem base_model_ids_agree_unless_absolute
    (W : world) (c : config) (b : bucket_vars) (f : finetune_vars)
    (s s' : state) (u : upload_request) (o : outcome) :
  cell_finetune W c b s = (Ok f, s') ->
  In (Model_upload u, o) (emitted (cell_deploy W c b f) s') ->
  dict_get (serving_container_environment_variables u) "MODEL_ID"
    = Some ("google/" ++ MODEL_ID c)
  /\ base_model_id f
     = (if PyString.startswith (MODEL_ID c) "/" then MODEL_ID c
        else "google/" ++ MODEL_ID c)
  /\ (dict_get (serving_container_environment_variables u) "MODEL_ID"
        = Some (base_model_id f)
      <-> PyString.startswith (MODEL_ID c) "/" = false).
Proof.
  intros Hf Hin. apply cell_finetune_returns in Hf. cbv zeta in Hf.
  destruct Hf as (mt & _ & -> & _). cbn [base_model_id].
  rewrite cell_deploy_emits_what_deploy_does in Hin. unfold emitted in Hin.
  match type of Hin with
  | context [deploy_model_vllm W ?hf ?n ?mid ?sa ?base ?mty ?aty ?ac ?g ?mml ?dt ?st] =>
      destruct (deploy_model_vllm_cases W hf n mid sa base mty aty ac g mml dt st)
        as (u0 & (_ & _ & _ & Hmodel & _) & Hcases)
  end.
  cbv zeta in Hcases.
  assert (Hu : u = u0).
  { destruct Hcases as [Hc|[Hc|[Hc|Hc]]]; rewrite Hc in Hin; cbn [snd log] in Hin;
      rewrite skipn_length_app in Hin; simpl in Hin;
      repeat (destruct Hin as [Hin|Hin]; [try discriminate Hin|]); try contradiction;
      inversion Hin; reflexivity. }
  subst u0. rewrite Hmodel. cbn [effective_base_model append].
  assert (Hj : PyString.os_path_join "google/" (MODEL_ID c)
               = if PyString.startswith (MODEL_ID c) "/" then MODEL_ID c
                 else "google/" ++ MODEL_ID c).
  { unfold PyString.os_path_join.
    destruct (PyString.startswith (MODEL_ID c) "/"); reflexivity. }
  split; [reflexivity|]. split; [exact Hj|].
  rewrite Hj. destruct (PyString.startswith (MODEL_ID c) "/"); split; intros H.
  - inversion H as [H1]. exfalso.
    apply (prepended_text_differs "google/" (MODEL_ID c)); [discriminate | exact H1].
  - discriminate H.
  - reflexivity.
  - reflexivity.
Qed.

Lemma base_model_ids_agree_unless_absolute_witness :
  forallb
    (fun ev =>
       match fst ev with
       | Model_upload u =>
           match dict_get (serving_container_environment_variables u) "MODEL_ID" with
           | Some m => String.eqb m "google//models/gemma"
           | None => false
           end
       | _ => true
       end)
    (emitted
       (cell_deploy calm
          (form (Some "gs://") "hf_abc" "/models/gemma" "NVIDIA_L4" "4bit" "" false)
          sample_bucket_vars
          (mk_finetune_vars "/models/gemma" (Some "g2-standard-12")
             "gemma-lora-train_20240305_102031"
             (mk_training_job 0 "gemma-lora-train_20240305_102031" TRAIN_DOCKER_URI)
             "gemma-lora-adapter_20240305_102032"
             (PyString.os_path_join (STAGING_BUCKET sample_bucket_vars)
                "gemma-lora-adapter_20240305_102032")
             "gemma-merged-model_20240305_102033"
             (PyString.os_path_join (STAGING_BUCKET sample_bucket_vars)
                "gemma-merged-model_20240305_102033")))
       (mk_state
          [ (CustomContainerTrainingJob "gemma-lora-train_20240305_102031"
               TRAIN_DOCKER_URI, Returned);
            (TrainingJob_run
               (mk_training_job 0 "gemma-lora-train_20240305_102031" TRAIN_DOCKER_URI)
               (mk_run_request
                  (train_args
                     (form (Some "gs://") "hf_abc" "/models/gemma" "NVIDIA_L4" "4bit" ""
                        false)
                     "/models/gemma"
                     (PyString.os_path_join (STAGING_BUCKET sample_bucket_vars)
                        "gemma-lora-adapter_20240305_102032")
                     (PyString.os_path_join (STAGING_BUCKET sample_bucket_vars)
                        "gemma-merged-model_20240305_102033") "")
                  [("WANDB_DISABLED", VBool true)] 1 (Some "g2-standard-12")
                  "NVIDIA_L4" 1 500 (SERVICE_ACCOUNT sample_bucket_vars)),
             Returned) ]
          4))
  = true.
Proof.
  apply forallb_forall. intros [k o] Hev. destruct k; try reflexivity.
  cbn [fst].
  rewrite (proj1 (base_model_ids_agree_unless_absolute calm
                    (form (Some "gs://") "hf_abc" "/models/gemma" "NVIDIA_L4" "4bit" ""
                       false)
                    sample_bucket_vars _ (mk_state [] 1) _ u o eq_refl Hev)).
  reflexivity.
Defined.
